(** * Slope Field Generator: a shallow embedding of [Slope Field.py]

    The development follows the source file top-down:

    - [PyStr]      : the part of Python's [str] the translator uses;
    - [ti84_to_numpy] : the calculator-to-NumPy translator;
    - [Float64], [Np] : NumPy values, with float64 idealised (see there);
    - [safe_slope_func], [generate_plot] : the evaluator and the plotter.

    Python's [compile]/[eval] and Matplotlib are not part of the file; the
    plotter is stated over an arbitrary [Runtime], and a concrete one for
    the calculator fragment is built from [Calc]. *)

From Stdlib Require Import Bool Arith ZArith List Ascii String Lia.
From Stdlib Require Import Reals Lra.
Import ListNotations.

Local Open Scope string_scope.

(* ================================================================== *)
(** ** Python strings: [str.replace] *)

Module PyStr.

(** [old] is a prefix of [s] (what [s.startswith(old)] answers). *)
Fixpoint startswith (old s : string) : bool :=
  match old with
  | EmptyString => true
  | String a old' =>
      match s with
      | EmptyString => false
      | String b s' => Ascii.eqb a b && startswith old' s'
      end
  end.

(** The scan of [str.replace] for a non-empty [old]: left to right, each
    occurrence found is replaced and the scan resumes after it, so that
    occurrences never overlap and the inserted text is never rescanned.
    [skip] counts the characters of a matched occurrence still to drop. *)
Fixpoint replace_scan (old new : string) (skip : nat) (s : string) : string :=
  match s with
  | EmptyString => EmptyString
  | String c s' =>
      match skip with
      | S k => replace_scan old new k s'
      | O =>
          if startswith old s
          then new ++ replace_scan old new (String.length old - 1) s'
          else String c (replace_scan old new 0 s')
      end
  end.

(** With an empty [old], Python inserts [new] before every character and
    at the end. *)
Fixpoint intersperse (new s : string) : string :=
  match s with
  | EmptyString => new
  | String c s' => new ++ String c (intersperse new s')
  end.

(** [s.replace(old, new)] *)
Definition replace (old new s : string) : string :=
  match old with
  | EmptyString => intersperse new s
  | String _ _ => replace_scan old new 0 s
  end.

(** [old] occurs in [s] at some position. *)
Fixpoint contains (old s : string) : bool :=
  startswith old s ||
  match s with
  | EmptyString => false
  | String _ s' => contains old s'
  end.

End PyStr.

(* ================================================================== *)
(** ** The translator (source lines 11-18) *)

Definition ti84_to_numpy (expr : string) : string :=
  PyStr.replace "sqrt" "np.sqrt"
    (PyStr.replace "ln" "np.log"
      (PyStr.replace "log" "np.log10"
        (PyStr.replace "tan" "np.tan"
          (PyStr.replace "cos" "np.cos"
            (PyStr.replace "sin" "np.sin"
              (PyStr.replace "^" "**" expr)))))).

Local Open Scope nat_scope.

(* ================================================================== *)
(** ** float64, idealised

    A finite float64 is modelled by the real number it stands for, and the
    operations on finite values are exact: rounding, overflow and the sign
    of zero are left out.  [NaN] and the two infinities are kept, with the
    IEEE 754 rules NumPy follows (an invalid operation gives [NaN], a
    non-zero value divided by zero gives an infinity, and nothing raises).
    What hinges on rounding or on overflow (the exact number of samples of
    [np.arange], a sample a rounding error away from a bound, a power too
    large for a float64) is out of reach of this model. *)

Inductive float64 : Type :=
| NaN
| PInf
| NInf
| Fin (r : R).

Module Float64.

Definition isnan (f : float64) : bool :=
  match f with NaN => true | _ => false end.

Definition isfinite (f : float64) : Prop :=
  match f with Fin _ => True | _ => False end.

Definition Rsign (r : R) : comparison :=
  if Rlt_dec r 0 then Lt else if Rlt_dec 0 r then Gt else Eq.

Definition inf (positive : bool) : float64 :=
  if positive then PInf else NInf.

Definition neg (a : float64) : float64 :=
  match a with
  | NaN => NaN
  | PInf => NInf
  | NInf => PInf
  | Fin x => Fin (- x)
  end.

Definition add (a b : float64) : float64 :=
  match a, b with
  | NaN, _ | _, NaN => NaN
  | PInf, NInf | NInf, PInf => NaN
  | PInf, _ | _, PInf => PInf
  | NInf, _ | _, NInf => NInf
  | Fin x, Fin y => Fin (x + y)
  end.

Definition sub (a b : float64) : float64 := add a (neg b).

(** an infinity of sign [positive] times the finite [x] *)
Definition inf_times (positive : bool) (x : R) : float64 :=
  match Rsign x with
  | Gt => inf positive
  | Lt => inf (negb positive)
  | Eq => NaN
  end.

Definition mul (a b : float64) : float64 :=
  match a, b with
  | NaN, _ | _, NaN => NaN
  | Fin x, Fin y => Fin (x * y)
  | PInf, Fin x | Fin x, PInf => inf_times true x
  | NInf, Fin x | Fin x, NInf => inf_times false x
  | PInf, PInf | NInf, NInf => PInf
  | PInf, NInf | NInf, PInf => NInf
  end.

Definition div (a b : float64) : float64 :=
  match a, b with
  | NaN, _ | _, NaN => NaN
  | Fin x, Fin y =>
      match Rsign y with
      | Eq => match Rsign x with Gt => PInf | Lt => NInf | Eq => NaN end
      | _ => Fin (x / y)
      end
  | Fin _, PInf | Fin _, NInf => Fin 0
  | PInf, Fin y => match Rsign y with Lt => NInf | _ => PInf end
  | NInf, Fin y => match Rsign y with Lt => PInf | _ => NInf end
  | _, _ => NaN
  end.

Definition abs (a : float64) : float64 :=
  match a with
  | NaN => NaN
  | PInf | NInf => PInf
  | Fin x => Fin (Rabs x)
  end.

Definition sqrt (a : float64) : float64 :=
  match a with
  | NaN | NInf => NaN
  | PInf => PInf
  | Fin x => if Rlt_dec x 0 then NaN else Fin (R_sqrt.sqrt x)
  end.

(** [a ** n] for a natural exponent; [nan ** 0] is [1]. *)
Definition power_nat (a : float64) (n : nat) : float64 :=
  match n with
  | O => Fin 1
  | S _ =>
      match a with
      | NaN => NaN
      | PInf => PInf
      | NInf => if Nat.even n then PInf else NInf
      | Fin x => Fin (x ^ n)
      end
  end.

(** [10.0 ** a], as [np.logspace] computes it *)
Definition exp10 (a : float64) : float64 :=
  match a with
  | NaN => NaN
  | PInf => PInf
  | NInf => Fin 0
  | Fin x => Fin (Rpower 10 x)
  end.

Definition sin (a : float64) : float64 :=
  match a with Fin x => Fin (Rtrigo_def.sin x) | _ => NaN end.

Definition cos (a : float64) : float64 :=
  match a with Fin x => Fin (Rtrigo_def.cos x) | _ => NaN end.

Definition tan (a : float64) : float64 :=
  match a with Fin x => Fin (Rtrigo1.tan x) | _ => NaN end.

(** natural logarithm: [-inf] at zero, [nan] below *)
Definition log (a : float64) : float64 :=
  match a with
  | NaN | NInf => NaN
  | PInf => PInf
  | Fin x =>
      match Rsign x with
      | Gt => Fin (ln x)
      | Eq => NInf
      | Lt => NaN
      end
  end.

Definition log10 (a : float64) : float64 :=
  match log a with
  | Fin l => Fin (l / ln 10)
  | other => other
  end.

(** [np.minimum] and [np.maximum]: a [nan] operand wins *)
Definition minimum (a b : float64) : float64 :=
  match a, b with
  | NaN, _ | _, NaN => NaN
  | NInf, _ | _, NInf => NInf
  | PInf, c | c, PInf => c
  | Fin x, Fin y => Fin (Rmin x y)
  end.

Definition maximum (a b : float64) : float64 :=
  match a, b with
  | NaN, _ | _, NaN => NaN
  | PInf, _ | _, PInf => PInf
  | NInf, c | c, NInf => c
  | Fin x, Fin y => Fin (Rmax x y)
  end.

(** [np.clip(a, lo, hi)] is [minimum(maximum(a, lo), hi)] *)
Definition clip (a : float64) (lo hi : R) : float64 :=
  minimum (maximum a (Fin lo)) (Fin hi).

End Float64.

(* ================================================================== *)
(** ** Exceptions and results

    Only classes derived from [Exception] are modelled: they are the ones
    the two [except Exception] handlers of the source catch.  What is not
    derived from [Exception] ([SystemExit], which [exit()] raises, or
    [KeyboardInterrupt]) passes both handlers; it has no counterpart here,
    and every statement below about a raised exception is a statement
    about one derived from [Exception]. *)

Inductive exn_class : Type :=
| SyntaxError
| NameError
| TypeError
| ValueError
| ZeroDivisionError
| AttributeError
| KeyError.

Record exn : Type := Exn { exn_class_of : exn_class; exn_message : string }.

Inductive result (A : Type) : Type :=
| Ok (a : A)
| Raise (e : exn).
Arguments Ok {A} a.
Arguments Raise {A} e.

Definition bind {A B : Type} (m : result A) (k : A -> result B) : result B :=
  match m with
  | Ok a => k a
  | Raise e => Raise e
  end.

Declare Scope py_scope.
Delimit Scope py_scope with py.
Notation "x <- m ;; k" := (bind m (fun x => k))
  (at level 61, m at next level, right associativity) : py_scope.

(** [try: body  except Exception as e: handler(e)] *)
Definition try_except {A : Type} (body : result A) (handler : exn -> result A)
  : result A :=
  match body with
  | Ok a => Ok a
  | Raise e => handler e
  end.

(* ================================================================== *)
(** ** NumPy arrays and the values an expression evaluates to

    A 2-D array is its shape and its row-major buffer; a 1-D array (the
    axes handed to [np.meshgrid]) is a list. *)

Record ndarray : Type := NdArr { shape : nat * nat; flat : list float64 }.

Definition nrows (a : ndarray) : nat := fst (shape a).
Definition ncols (a : ndarray) : nat := snd (shape a).

(** The buffer has as many entries as the shape says. *)
Definition wf_array (a : ndarray) : Prop :=
  List.length (flat a) = nrows a * ncols a.

(** What [eval] may return: a Python number (an [int] or a [float], which
    has no [flatten]), a NumPy scalar or 0-d array, or a 2-D array. *)
Inductive pyval : Type :=
| PyNum (r : R)
| NpScalar (f : float64)
| NdArray (a : ndarray).

(** [np.shape(v)] *)
Definition shape_of (v : pyval) : list nat :=
  match v with
  | PyNum _ | NpScalar _ => []
  | NdArray a => [nrows a; ncols a]
  end.

Inductive arith : Type := Add | Sub | Mul | Div.

Module Np.

Definition pi : R := PI.

Definition map (f : float64 -> float64) (a : ndarray) : ndarray :=
  NdArr (shape a) (List.map f (flat a)).

(** [np.full_like(a, v, dtype=np.float64)] *)
Definition full_like (a : ndarray) (v : float64) : ndarray :=
  NdArr (shape a) (repeat v (nrows a * ncols a)).

(** One dimension of the broadcast shape, when the two sizes agree. *)
Definition broadcast_dim (d1 d2 : nat) : option nat :=
  if d1 =? d2 then Some d1
  else if d1 =? 1 then Some d2
  else if d2 =? 1 then Some d1
  else None.

(** Entry [(i, j)] of [a] seen through broadcasting: a dimension of size
    one is read at index 0. *)
Definition item (a : ndarray) (i j : nat) : float64 :=
  nth ((if nrows a =? 1 then 0 else i) * ncols a
       + (if ncols a =? 1 then 0 else j)) (flat a) NaN.

Definition broadcast (f : float64 -> float64 -> float64) (a b : ndarray)
  : result ndarray :=
  match broadcast_dim (nrows a) (nrows b), broadcast_dim (ncols a) (ncols b) with
  | Some m, Some n =>
      Ok (NdArr (m, n)
            (flat_map (fun i => List.map (fun j => f (item a i j) (item b i j))
                                  (seq 0 n))
                      (seq 0 m)))
  | _, _ => Raise (Exn ValueError "operands could not be broadcast together")
  end.

(** [np.arange(start, stop, step)] for a positive [step]:
    [ceil((stop - start) / step)] samples [start + i * step]. *)
Definition arange (start stop step : R) : list float64 :=
  List.map (fun i => Fin (start + INR i * step))
    (seq 0 (Z.to_nat (Zceil ((stop - start) / step)))).

(** [np.linspace(start, stop, num)], end point included.  With
    [div = num - 1] and [delta = stop - start], NumPy computes
    [arange(0, num) * (delta / div) + start] when [div > 0] and
    [arange(0, num) * delta + start] otherwise (so one sample is [start]),
    and then, when [num > 1], stores [stop] in the last place. *)
Definition linspace (start stop : float64) (num : Z) : result (list float64) :=
  if (num <? 0)%Z then
    Raise (Exn ValueError "Number of samples must be non-negative")
  else
    let n := Z.to_nat num in
    let delta := Float64.sub stop start in
    let step := if 1 <? n then Float64.div delta (Fin (INR (n - 1))) else delta in
    Ok (List.map (fun i => if (1 <? n) && (i =? n - 1) then stop
                           else Float64.add (Float64.mul (Fin (INR i)) step) start)
          (seq 0 n)).

(** [np.logspace(start, stop, num)] is [10 ** linspace(start, stop, num)] *)
Definition logspace (start stop : float64) (num : Z) : result (list float64) :=
  (ys <- linspace start stop num ;; Ok (List.map Float64.exp10 ys))%py.

(** [np.meshgrid(xs, ys)]: both results have shape [(len ys, len xs)] *)
Definition meshgrid (xs ys : list float64) : ndarray * ndarray :=
  let sh := (List.length ys, List.length xs) in
  (NdArr sh (List.concat (repeat xs (List.length ys))),
   NdArr sh (flat_map (fun y => repeat y (List.length xs)) ys)).

(** [np.min(a)] and [np.max(a)]: a [nan] entry makes the result [nan], and
    an empty array has no minimum. *)
Definition reduce (f : float64 -> float64 -> float64) (a : ndarray)
  : result float64 :=
  match flat a with
  | [] => Raise (Exn ValueError "zero-size array to reduction operation")
  | v :: vs => Ok (fold_left f vs v)
  end.

Definition min (a : ndarray) : result float64 := reduce Float64.minimum a.
Definition max (a : ndarray) : result float64 := reduce Float64.maximum a.

(** [np.isnan(v).all()] *)
Definition isnan_all (v : pyval) : bool :=
  match v with
  | PyNum _ => false
  | NpScalar f => Float64.isnan f
  | NdArray a => forallb Float64.isnan (flat a)
  end.

(** [np.ones_like(v)]; of a scalar it is a 0-d array *)
Definition ones_like (v : pyval) : pyval :=
  match v with
  | PyNum _ | NpScalar _ => NpScalar (Fin 1)
  | NdArray a => NdArray (full_like a (Fin 1))
  end.

(** a unary ufunc such as [np.sqrt]; of a Python number it returns a NumPy
    scalar *)
Definition ufunc (f : float64 -> float64) (v : pyval) : pyval :=
  match v with
  | PyNum r => NpScalar (f (Fin r))
  | NpScalar x => NpScalar (f x)
  | NdArray a => NdArray (map f a)
  end.

End Np.

(** *** Python's arithmetic operators on these values *)

Module Py.

Definition float_op (o : arith) : float64 -> float64 -> float64 :=
  match o with
  | Add => Float64.add
  | Sub => Float64.sub
  | Mul => Float64.mul
  | Div => Float64.div
  end.

(** Between two Python numbers, division by zero raises. *)
Definition num_op (o : arith) (x y : R) : result R :=
  match o with
  | Add => Ok (x + y)%R
  | Sub => Ok (x - y)%R
  | Mul => Ok (x * y)%R
  | Div => if Req_dec_T y 0
           then Raise (Exn ZeroDivisionError "division by zero")
           else Ok (x / y)%R
  end.

(** [a o b]: Python numbers stay Python numbers, a NumPy operand makes the
    result a NumPy value, and two arrays are broadcast. *)
Definition binary (o : arith) (a b : pyval) : result pyval :=
  match a, b with
  | PyNum x, PyNum y => (r <- num_op o x y ;; Ok (PyNum r))%py
  | PyNum x, NpScalar g => Ok (NpScalar (float_op o (Fin x) g))
  | NpScalar f, PyNum y => Ok (NpScalar (float_op o f (Fin y)))
  | NpScalar f, NpScalar g => Ok (NpScalar (float_op o f g))
  | PyNum x, NdArray c => Ok (NdArray (Np.map (float_op o (Fin x)) c))
  | NpScalar f, NdArray c => Ok (NdArray (Np.map (float_op o f) c))
  | NdArray c, PyNum y => Ok (NdArray (Np.map (fun v => float_op o v (Fin y)) c))
  | NdArray c, NpScalar g => Ok (NdArray (Np.map (fun v => float_op o v g) c))
  | NdArray c, NdArray d => (r <- Np.broadcast (float_op o) c d ;; Ok (NdArray r))%py
  end.

(** [a ** n] for a literal natural number [n] *)
Definition power (a : pyval) (n : nat) : pyval :=
  match a with
  | PyNum x => PyNum (x ^ n)
  | NpScalar f => NpScalar (Float64.power_nat f n)
  | NdArray c => NdArray (Np.map (fun v => Float64.power_nat v n) c)
  end.

(** [-a] *)
Definition negative (a : pyval) : pyval :=
  match a with
  | PyNum x => PyNum (- x)
  | NpScalar f => NpScalar (Float64.neg f)
  | NdArray c => NdArray (Np.map Float64.neg c)
  end.

(** [int(r)] truncates towards zero *)
Definition int (r : R) : Z :=
  if Rlt_dec r 0 then Zceil r else Zfloor r.

(** [v.flatten()]: a NumPy method, which Python numbers lack *)
Definition flatten (v : pyval) : result (list float64) :=
  match v with
  | PyNum _ => Raise (Exn AttributeError "object has no attribute 'flatten'")
  | NpScalar f => Ok [f]
  | NdArray a => Ok (flat a)
  end.

End Py.

(* ================================================================== *)
(** ** The grid of sample points (source lines 40-68) *)

Definition step : R := 0.05.

Definition build_grid (coord_system : string) (x_max y_max : R)
  : result (ndarray * ndarray) :=
  if String.eqb coord_system "Cartesian" then
    let x_vals := Np.arange (- x_max) (x_max + step) step in
    let y_vals := Np.arange (- y_max) (y_max + step) step in
    Ok (Np.meshgrid x_vals y_vals)
  else if String.eqb coord_system "Polar" then
    let r := Np.arange 0.01 x_max step in
    let theta := Np.arange 0 (2 * Np.pi) step in
    let (Rg, Tg) := Np.meshgrid r theta in
    (X <- Np.broadcast Float64.mul Rg (Np.map Float64.cos Tg) ;;
     Y <- Np.broadcast Float64.mul Rg (Np.map Float64.sin Tg) ;;
     Ok (X, Y))%py
  else if String.eqb coord_system "Log-Polar" then
    (r <- Np.logspace (Fin (-1)) (Float64.log10 (Fin x_max))
                      (Py.int (x_max / step)) ;;
     theta <- Np.linspace (Fin 0) (Fin (2 * Np.pi))
                          (Py.int (2 * Np.pi / step)) ;;
     let (Rg, Tg) := Np.meshgrid r theta in
     X <- Np.broadcast Float64.mul Rg (Np.map Float64.cos Tg) ;;
     Y <- Np.broadcast Float64.mul Rg (Np.map Float64.sin Tg) ;;
     Ok (X, Y))%py
  else if String.eqb coord_system "Log-Log" then
    (x_vals <- Np.logspace (Fin (-1)) (Float64.log10 (Fin x_max))
                           (Py.int (x_max / step)) ;;
     y_vals <- Np.logspace (Fin (-1)) (Float64.log10 (Fin y_max))
                           (Py.int (y_max / step)) ;;
     Ok (Np.meshgrid x_vals y_vals))%py
  else if String.eqb coord_system "Hexagonal" then
    let x_vals := Np.arange (- x_max) (x_max + step) 0.2 in
    let y_vals := Np.arange (- y_max) (y_max + step) (0.2 * sqrt 3) in
    Ok (Np.meshgrid x_vals y_vals)
  else if String.eqb coord_system "Complex Plane" then
    let real := Np.arange (- x_max) (x_max + step) step in
    let imag := Np.arange (- y_max) (y_max + step) step in
    Ok (Np.meshgrid real imag)
  else
    Raise (Exn ValueError "Unsupported coordinate system").

(** The sample points of a grid, in buffer order. *)
Definition grid_points (g : ndarray * ndarray) : list (float64 * float64) :=
  combine (flat (fst g)) (flat (snd g)).

(* ================================================================== *)
(** ** Python on the calculator fragment

    [Calc.compile] and [Calc.eval] stand for Python's [compile] and [eval]
    on the expressions the translator is meant for: decimal literals,
    the variables [x] and [y], the six [np.] functions applied to one
    argument, [+ - * /], unary signs, parentheses and [**] with a literal
    natural exponent.  A string outside the fragment is rejected here even
    where Python accepts it; the statements about [generate_plot] are made
    for every runtime and do not depend on this one. *)

Module Calc.

Inductive npfunc : Type := np_sin | np_cos | np_tan | np_log10 | np_log | np_sqrt.

Inductive token : Type :=
| TNum (digits : N) (decimals : nat)
| TX
| TY
| TFunc (f : npfunc)
| TPlus
| TMinus
| TStar
| TSlash
| TPow
| TLParen
| TRParen.

(** [digits / 10^decimals] is the value of a literal. *)
Inductive expr : Type :=
| Num (digits : N) (decimals : nat)
| VarX
| VarY
| Call (f : npfunc) (arg : expr)
| BinOp (o : arith) (l r : expr)
| Power (l : expr) (n : nat)
| UAdd (e : expr)
| USub (e : expr).

Definition is_digit (c : ascii) : bool :=
  let n := nat_of_ascii c in (48 <=? n) && (n <=? 57).

Definition is_ident (c : ascii) : bool :=
  let n := nat_of_ascii c in
  is_digit c || ((65 <=? n) && (n <=? 90)) || ((97 <=? n) && (n <=? 122))
  || (n =? 95).

(** the longest prefix of [s] made of characters satisfying [p] *)
Fixpoint span (p : ascii -> bool) (s : string) : string * string :=
  match s with
  | EmptyString => (EmptyString, EmptyString)
  | String c s' =>
      if p c then let (a, b) := span p s' in (String c a, b)
      else (EmptyString, s)
  end.

Fixpoint digits_value (acc : N) (s : string) : N :=
  match s with
  | EmptyString => acc
  | String c s' => digits_value (acc * 10 + N.of_nat (nat_of_ascii c - 48)) s'
  end.

Definition func_of_name (s : string) : option npfunc :=
  if String.eqb s "sin" then Some np_sin
  else if String.eqb s "cos" then Some np_cos
  else if String.eqb s "tan" then Some np_tan
  else if String.eqb s "log10" then Some np_log10
  else if String.eqb s "log" then Some np_log
  else if String.eqb s "sqrt" then Some np_sqrt
  else None.

(** One token off the front of a non-empty [s] that starts with neither a
    blank nor the end. *)
Definition next_token (s : string) : option (token * string) :=
  match s with
  | EmptyString => None
  | String c s' =>
      if is_digit c then
        let (int_part, rest) := span is_digit s in
        match rest with
        | String "." (String d rest') =>
            if is_digit d then
              let (frac, rest'') := span is_digit (String d rest') in
              match rest'' with
              | String e _ =>
                  if is_ident e || Ascii.eqb e "." then None
                  else Some (TNum (digits_value 0 (int_part ++ frac))
                                  (String.length frac), rest'')
              | EmptyString =>
                  Some (TNum (digits_value 0 (int_part ++ frac))
                             (String.length frac), rest'')
              end
            else None
        | String e _ =>
            if is_ident e || Ascii.eqb e "."
               || (Ascii.eqb c "0" && (1 <? String.length int_part)) then None
            else Some (TNum (digits_value 0 int_part) 0, rest)
        | EmptyString =>
            if Ascii.eqb c "0" && (1 <? String.length int_part) then None
            else Some (TNum (digits_value 0 int_part) 0, rest)
        end
      else if is_ident c then
        let (name, rest) := span is_ident s in
        if String.eqb name "x" then Some (TX, rest)
        else if String.eqb name "y" then Some (TY, rest)
        else if String.eqb name "np" then
          match rest with
          | String "." rest' =>
              let (attr, rest'') := span is_ident rest' in
              match func_of_name attr with
              | Some f => Some (TFunc f, rest'')
              | None => None
              end
          | _ => None
          end
        else None
      else if Ascii.eqb c "+" then Some (TPlus, s')
      else if Ascii.eqb c "-" then Some (TMinus, s')
      else if Ascii.eqb c "/" then Some (TSlash, s')
      else if Ascii.eqb c "(" then Some (TLParen, s')
      else if Ascii.eqb c ")" then Some (TRParen, s')
      else if Ascii.eqb c "*" then
        match s' with
        | String "*" s'' => Some (TPow, s'')
        | _ => Some (TStar, s')
        end
      else None
  end.

Fixpoint tokenize_from (fuel : nat) (s : string) : option (list token) :=
  match fuel with
  | O => None
  | S fuel' =>
      match s with
      | EmptyString => Some []
      | String " " s' => tokenize_from fuel' s'
      | _ =>
          match next_token s with
          | Some (t, rest) =>
              match tokenize_from fuel' rest with
              | Some ts => Some (t :: ts)
              | None => None
              end
          | None => None
          end
      end
  end.

(** A leading blank is an indentation error, which is a syntax error. *)
Definition tokenize (s : string) : option (list token) :=
  match s with
  | String " " _ => None
  | _ => tokenize_from (S (String.length s)) s
  end.

Inductive goal : Type :=
| GExpr
| GExprRest (lhs : expr)
| GTerm
| GTermRest (lhs : expr)
| GFactor
| GPower.

(** Python's grammar on the fragment:
    [expr: term (('+'|'-') term)*], [term: factor (('*'|'/') factor)*],
    [factor: ('+'|'-') factor | power], [power: atom ['**' NUMBER]]. *)
Fixpoint parse (fuel : nat) (g : goal) (ts : list token)
  : option (expr * list token) :=
  match fuel with
  | O => None
  | S fuel' =>
      match g with
      | GExpr =>
          match parse fuel' GTerm ts with
          | Some (l, ts') => parse fuel' (GExprRest l) ts'
          | None => None
          end
      | GExprRest l =>
          match ts with
          | TPlus :: ts' =>
              match parse fuel' GTerm ts' with
              | Some (r, ts'') => parse fuel' (GExprRest (BinOp Add l r)) ts''
              | None => None
              end
          | TMinus :: ts' =>
              match parse fuel' GTerm ts' with
              | Some (r, ts'') => parse fuel' (GExprRest (BinOp Sub l r)) ts''
              | None => None
              end
          | _ => Some (l, ts)
          end
      | GTerm =>
          match parse fuel' GFactor ts with
          | Some (l, ts') => parse fuel' (GTermRest l) ts'
          | None => None
          end
      | GTermRest l =>
          match ts with
          | TStar :: ts' =>
              match parse fuel' GFactor ts' with
              | Some (r, ts'') => parse fuel' (GTermRest (BinOp Mul l r)) ts''
              | None => None
              end
          | TSlash :: ts' =>
              match parse fuel' GFactor ts' with
              | Some (r, ts'') => parse fuel' (GTermRest (BinOp Div l r)) ts''
              | None => None
              end
          | _ => Some (l, ts)
          end
      | GFactor =>
          match ts with
          | TPlus :: ts' =>
              match parse fuel' GFactor ts' with
              | Some (e, ts'') => Some (UAdd e, ts'')
              | None => None
              end
          | TMinus :: ts' =>
              match parse fuel' GFactor ts' with
              | Some (e, ts'') => Some (USub e, ts'')
              | None => None
              end
          | _ => parse fuel' GPower ts
          end
      | GPower =>
          let atom :=
            match ts with
            | TNum d k :: ts' => Some (Num d k, ts')
            | TX :: ts' => Some (VarX, ts')
            | TY :: ts' => Some (VarY, ts')
            | TFunc f :: TLParen :: ts' =>
                match parse fuel' GExpr ts' with
                | Some (a, TRParen :: ts'') => Some (Call f a, ts'')
                | _ => None
                end
            | TLParen :: ts' =>
                match parse fuel' GExpr ts' with
                | Some (e, TRParen :: ts'') => Some (e, ts'')
                | _ => None
                end
            | _ => None
            end in
          match atom with
          | Some (e, TPow :: TNum d 0 :: ts') => Some (Power e (N.to_nat d), ts')
          | Some (e, TPow :: _) => None
          | other => other
          end
      end
  end.

Definition syntax_error : exn := Exn SyntaxError "invalid syntax".

Definition compile (s : string) : result expr :=
  match tokenize s with
  | None => Raise syntax_error
  | Some ts =>
      match parse (8 * S (List.length ts)) GExpr ts with
      | Some (e, []) => Ok e
      | _ => Raise syntax_error
      end
  end.

Definition ufunc_of (f : npfunc) : float64 -> float64 :=
  match f with
  | np_sin => Float64.sin
  | np_cos => Float64.cos
  | np_tan => Float64.tan
  | np_log10 => Float64.log10
  | np_log => Float64.log
  | np_sqrt => Float64.sqrt
  end.

Definition literal (digits : N) (decimals : nat) : R :=
  IZR (Z.of_N digits) / 10 ^ decimals.

(** Evaluation with [x] and [y] bound to the two arrays; operands are
    evaluated left to right. *)
Fixpoint eval (e : expr) (x y : ndarray) : result pyval :=
  match e with
  | Num d k => Ok (PyNum (literal d k))
  | VarX => Ok (NdArray x)
  | VarY => Ok (NdArray y)
  | Call f a => (v <- eval a x y ;; Ok (Np.ufunc (ufunc_of f) v))%py
  | BinOp o l r =>
      (a <- eval l x y ;; b <- eval r x y ;; Py.binary o a b)%py
  | Power l n => (a <- eval l x y ;; Ok (Py.power a n))%py
  | UAdd a => eval a x y
  | USub a => (v <- eval a x y ;; Ok (Py.negative v))%py
  end.

End Calc.

(* ================================================================== *)
(** ** The evaluator and the plotter, over an arbitrary runtime

    [compile] and [eval] are Python's, the colour maps and [streamplot]
    are Matplotlib's: they are parameters here.  The calls made on the
    axes are recorded in [Axes]; of the checks Matplotlib makes on their
    arguments, the one on the opacity of a line is modelled ([ax_plot]).
    What Matplotlib draws from the calls is the business of the rendering
    surface.  The two [print] calls are left out. *)

Record Normalize : Type :=
  MkNormalize { vmin : float64; vmax : float64; clip : bool }.

Definition newline : string := String (Ascii.ascii_of_nat 10) EmptyString.

Definition diagnostic : string :=
  ("Error: Invalid function" ++ newline
   ++ "Use TI-84 style syntax like x^2 + sin(x)")%string.

(** What the plotter takes from Python and Matplotlib. *)
Record Runtime : Type := MkRuntime {
  code : Type;
  (* [compile(expr, "<string>", "eval")] *)
  py_compile : string -> result code;
  (* [eval(compiled, {"np": np, "x": x_arr, "y": y_arr})] *)
  py_eval : code -> ndarray -> ndarray -> result pyval;
  rgba : Type;
  Colormap : Type;
  (* [colormaps[name]] *)
  colormaps : string -> option Colormap;
  (* the colour [cmap(norm(v))] of one value *)
  cmap_call : Colormap -> Normalize -> float64 -> rgba;
  StreamplotSet : Type;
  (* [ax.streamplot(X, Y, U, V, color=V, cmap=name, linewidth=0.7,
     density=1.5, norm=norm)] *)
  mpl_streamplot :
    ndarray -> ndarray -> pyval -> pyval -> string -> Normalize ->
    result StreamplotSet
}.

Section Runtime.

Variable rt : Runtime.

(** *** Source lines 21-31

    [np.asarray] leaves an array as it is. *)

Definition func (compiled : code rt) (x y : ndarray) : result pyval :=
  try_except
    (py_eval rt compiled x y)
    (fun e => Ok (NdArray (Np.full_like x NaN))).

Definition safe_slope_func (expr : string)
  : result (ndarray -> ndarray -> result pyval) :=
  (compiled <- py_compile rt expr ;; Ok (func compiled))%py.

(** *** The axes *)

Record Line2D : Type := MkLine {
  xdata : float64 * float64;
  ydata : float64 * float64;
  line_color : rgba rt;
  linewidth : R;
  alpha : float64
}.

Record Text : Type := MkText {
  text_x : R;
  text_y : R;
  text_s : string;
  fontsize : nat;
  ha : string;
  va : string;
  text_color : string
}.

Record Colorbar : Type := MkColorbar {
  cb_cmap : Colormap rt;
  cb_norm : Normalize;
  cb_label : string
}.

Record Axes : Type := MkAxes {
  facecolor : option string;
  xlim : option (float64 * float64);
  ylim : option (float64 * float64);
  aspect : option string;
  tick_colors : option string;
  title : option string;
  lines : list Line2D;
  streams : list (StreamplotSet rt);
  texts : list Text;
  xticks : option (list R);
  yticks : option (list R);
  (* the attribute [ax.colorbar] the plotter hangs on the object *)
  colorbar : option Colorbar
}.

(** [ax.clear()] resets the axes; the attribute [colorbar] is the
    plotter's own and stays. *)
Definition clear (ax : Axes) : Axes :=
  MkAxes None None None None None None [] [] [] None None (colorbar ax).

Definition set_facecolor (c : string) (ax : Axes) : Axes :=
  MkAxes (Some c) (xlim ax) (ylim ax) (aspect ax) (tick_colors ax) (title ax)
         (lines ax) (streams ax) (texts ax) (xticks ax) (yticks ax) (colorbar ax).

Definition set_xlim (lo hi : float64) (ax : Axes) : Axes :=
  MkAxes (facecolor ax) (Some (lo, hi)) (ylim ax) (aspect ax) (tick_colors ax)
         (title ax) (lines ax) (streams ax) (texts ax) (xticks ax) (yticks ax)
         (colorbar ax).

Definition set_ylim (lo hi : float64) (ax : Axes) : Axes :=
  MkAxes (facecolor ax) (xlim ax) (Some (lo, hi)) (aspect ax) (tick_colors ax)
         (title ax) (lines ax) (streams ax) (texts ax) (xticks ax) (yticks ax)
         (colorbar ax).

Definition set_aspect (a : string) (ax : Axes) : Axes :=
  MkAxes (facecolor ax) (xlim ax) (ylim ax) (Some a) (tick_colors ax) (title ax)
         (lines ax) (streams ax) (texts ax) (xticks ax) (yticks ax) (colorbar ax).

Definition tick_params (c : string) (ax : Axes) : Axes :=
  MkAxes (facecolor ax) (xlim ax) (ylim ax) (aspect ax) (Some c) (title ax)
         (lines ax) (streams ax) (texts ax) (xticks ax) (yticks ax) (colorbar ax).

Definition set_title (t : string) (ax : Axes) : Axes :=
  MkAxes (facecolor ax) (xlim ax) (ylim ax) (aspect ax) (tick_colors ax) (Some t)
         (lines ax) (streams ax) (texts ax) (xticks ax) (yticks ax) (colorbar ax).

Definition plot (l : Line2D) (ax : Axes) : Axes :=
  MkAxes (facecolor ax) (xlim ax) (ylim ax) (aspect ax) (tick_colors ax) (title ax)
         (lines ax ++ [l]) (streams ax) (texts ax) (xticks ax) (yticks ax)
         (colorbar ax).

Definition add_streamplot (s : StreamplotSet rt) (ax : Axes) : Axes :=
  MkAxes (facecolor ax) (xlim ax) (ylim ax) (aspect ax) (tick_colors ax) (title ax)
         (lines ax) (streams ax ++ [s]) (texts ax) (xticks ax) (yticks ax)
         (colorbar ax).

Definition text (t : Text) (ax : Axes) : Axes :=
  MkAxes (facecolor ax) (xlim ax) (ylim ax) (aspect ax) (tick_colors ax) (title ax)
         (lines ax) (streams ax) (texts ax ++ [t]) (xticks ax) (yticks ax)
         (colorbar ax).

Definition set_xticks (t : list R) (ax : Axes) : Axes :=
  MkAxes (facecolor ax) (xlim ax) (ylim ax) (aspect ax) (tick_colors ax) (title ax)
         (lines ax) (streams ax) (texts ax) (Some t) (yticks ax) (colorbar ax).

Definition set_yticks (t : list R) (ax : Axes) : Axes :=
  MkAxes (facecolor ax) (xlim ax) (ylim ax) (aspect ax) (tick_colors ax) (title ax)
         (lines ax) (streams ax) (texts ax) (xticks ax) (Some t) (colorbar ax).

Definition set_colorbar (c : option Colorbar) (ax : Axes) : Axes :=
  MkAxes (facecolor ax) (xlim ax) (ylim ax) (aspect ax) (tick_colors ax) (title ax)
         (lines ax) (streams ax) (texts ax) (xticks ax) (yticks ax) c.

(** *** Statements that may raise, acting on the axes *)

Definition M (A : Type) : Type := Axes -> result A * Axes.

Definition ret {A : Type} (a : A) : M A := fun ax => (Ok a, ax).

Definition raise {A : Type} (e : exn) : M A := fun ax => (Raise e, ax).

Definition bindM {A B : Type} (m : M A) (k : A -> M B) : M B :=
  fun ax =>
    match m ax with
    | (Ok a, ax') => k a ax'
    | (Raise e, ax') => (Raise e, ax')
    end.

(** an expression that may raise but leaves the axes alone *)
Definition lift {A : Type} (r : result A) : M A := fun ax => (r, ax).

(** a call on the axes *)
Definition call (f : Axes -> Axes) : M unit := fun ax => (Ok tt, f ax).

Declare Scope stmt_scope.
Delimit Scope stmt_scope with stmt.
Notation "x <- m ; k" := (bindM m (fun x => k))
  (at level 61, m at next level, right associativity) : stmt_scope.
Notation "m ;; k" := (bindM m (fun _ => k))
  (at level 61, right associativity) : stmt_scope.

(** [np.min(v)] and [np.max(v)] of a value [eval] returned *)
Definition amin (v : pyval) : result float64 :=
  match v with
  | PyNum r => Ok (Fin r)
  | NpScalar f => Ok f
  | NdArray a => Np.min a
  end.

Definition amax (v : pyval) : result float64 :=
  match v with
  | PyNum r => Ok (Fin r)
  | NpScalar f => Ok f
  | NdArray a => Np.max a
  end.

(** [zip] of the four flattened end-point arrays and the colours: it stops
    with the shortest. *)
Fixpoint zip5 (xs xe ys ye : list float64) (cs : list (rgba rt))
  : list (float64 * float64 * float64 * float64 * rgba rt) :=
  match xs, xe, ys, ye, cs with
  | a :: xs', b :: xe', c :: ys', d :: ye', e :: cs' =>
      (a, b, c, d, e) :: zip5 xs' xe' ys' ye' cs'
  | _, _, _, _, _ => []
  end.

(** source line 101 *)
Definition segment_alpha (ys ye : float64) : float64 :=
  Float64.clip
    (Float64.abs (Float64.div (Float64.sub ye ys) (Fin 0.25))) 0.2 1.0.

(** the line of the loop body, source lines 100-102 *)
Definition draw_segment (s : float64 * float64 * float64 * float64 * rgba rt)
  : Line2D :=
  let '(xs, xe, ys, ye, color) := s in
  MkLine (xs, xe) (ys, ye) color 0.7 (segment_alpha ys ye).

(** [ax.plot(..., alpha=a)]: Matplotlib checks the opacity of the line it
    is to create ([Artist.set_alpha]) and raises [ValueError] unless
    [0 <= a <= 1]; [nan] fails the test, and no line is added. *)
Definition alpha_in_range (a : float64) : bool :=
  match a with
  | Fin r => if Rle_dec 0 r then (if Rle_dec r 1 then true else false) else false
  | _ => false
  end.

Definition ax_plot (l : Line2D) : M unit :=
  if alpha_in_range (alpha l)
  then call (plot l)
  else raise (Exn ValueError "alpha is outside 0-1 range").

(** the loop, source lines 99-102 *)
Fixpoint draw_segments
    (zs : list (float64 * float64 * float64 * float64 * rgba rt)) : M unit :=
  match zs with
  | [] => ret tt
  | z :: zs' => (ax_plot (draw_segment z) ;; draw_segments zs')%stmt
  end.

(** source line 74 *)
Definition vector_length (U V : pyval) : result pyval :=
  (s <- Py.binary Add (Py.power U 2) (Py.power V 2) ;;
   Ok (Np.ufunc Float64.sqrt s))%py.

(** source lines 75-76: [0.25 * W / length] *)
Definition normalized (W length : pyval) : result pyval :=
  (t <- Py.binary Mul (PyNum 0.25) W ;; Py.binary Div t length)%py.

(** source lines 77-80: [P - W_norm / 2] and [P + W_norm / 2] *)
Definition segment_end (o : arith) (P : ndarray) (W_norm : pyval)
  : result pyval :=
  (h <- Py.binary Div W_norm (PyNum 2) ;; Py.binary o (NdArray P) h)%py.

(** *** Source lines 40-111: the body of the [try] *)

Definition plot_body (slope_func : ndarray -> ndarray -> result pyval)
    (expr_raw : string) (x_max y_max : R) (cmap_name : string)
    (streamplot : bool) (coord_system : string) : M unit :=
  (g <- lift (build_grid coord_system x_max y_max) ;
   let X := fst g in
   let Y := snd g in
   V <- lift (slope_func X Y) ;
   (if Np.isnan_all V
    then raise (Exn ValueError "Invalid function syntax")
    else ret tt) ;;
   let U := Np.ones_like V in
   length <- lift (vector_length U V) ;
   U_norm <- lift (normalized U length) ;
   V_norm <- lift (normalized V length) ;
   X_start <- lift (segment_end Sub X U_norm) ;
   X_end <- lift (segment_end Add X U_norm) ;
   Y_start <- lift (segment_end Sub Y V_norm) ;
   Y_end <- lift (segment_end Add Y V_norm) ;
   call (set_facecolor "black") ;;
   x_lo <- lift (Np.min X) ;
   x_hi <- lift (Np.max X) ;
   call (set_xlim x_lo x_hi) ;;
   y_lo <- lift (Np.min Y) ;
   y_hi <- lift (Np.max Y) ;
   call (set_ylim y_lo y_hi) ;;
   call (set_aspect "equal") ;;
   call (tick_params "white") ;;
   call (set_title ("Slope Field for dy/dx = " ++ expr_raw)%string) ;;
   cmap <- lift (match colormaps rt cmap_name with
                 | Some c => Ok c
                 | None => Raise (Exn KeyError cmap_name)
                 end) ;
   v_lo <- lift (amin V) ;
   v_hi <- lift (amax V) ;
   let norm := MkNormalize v_lo v_hi true in
   call (set_colorbar None) ;;
   (if streamplot then
      s <- lift (mpl_streamplot rt X Y U V cmap_name norm) ;
      call (add_streamplot s)
    else
      vs <- lift (Py.flatten V) ;
      let colors := List.map (cmap_call rt cmap norm) vs in
      xs <- lift (Py.flatten X_start) ;
      xe <- lift (Py.flatten X_end) ;
      ys <- lift (Py.flatten Y_start) ;
      ye <- lift (Py.flatten Y_end) ;
      draw_segments (zip5 xs xe ys ye colors)) ;;
   call (set_colorbar (Some (MkColorbar cmap norm "Slope dy/dx"))))%stmt.

(** *** Source lines 113-121: the handler *)

Definition failure_payload (ax : Axes) : Axes :=
  set_yticks []
    (set_xticks []
      (text (MkText 0.5 0.5 diagnostic 12 "center" "center" "white")
        (set_facecolor "black" (clear ax)))).

(** *** Source lines 34-121

    The result is what the call does (returns [None], or lets an exception
    escape) together with the axes as it leaves them. *)

Definition generate_plot (ax : Axes) (expr_raw : string) (x_max y_max : R)
    (cmap_name : string) (streamplot : bool) (coord_system : string)
  : result unit * Axes :=
  let ax := clear ax in
  let expr := ti84_to_numpy expr_raw in
  match safe_slope_func expr with
  | Raise e => (Raise e, ax)
  | Ok slope_func =>
      match plot_body slope_func expr_raw x_max y_max cmap_name streamplot
                      coord_system ax with
      | (Ok tt, ax') => (Ok tt, ax')
      | (Raise e, ax') => (Ok tt, failure_payload ax')
      end
  end.

End Runtime.


Arguments Axes : clear implicits.
Arguments failure_payload {rt} ax.
Arguments clear {rt} ax.

(** The calculator fragment as a runtime.  The Matplotlib side is a plain
    stand-in: of the registry only the seven palettes the GUI offers are
    known (Matplotlib registers many more, which this instance would
    refuse), a colour is the normalised value, and a stream plot is
    accepted as it is. *)
Definition calc_runtime : Runtime := {|
  code := Calc.expr;
  py_compile := Calc.compile;
  py_eval := Calc.eval;
  rgba := float64;
  Colormap := string;
  colormaps := fun name =>
    if existsb (String.eqb name)
         ["rainbow"; "viridis"; "plasma"; "magma"; "turbo"; "coolwarm";
          "cividis"]%string
    then Some name else None;
  cmap_call := fun _ n v =>
    Float64.div (Float64.sub v (vmin n)) (Float64.sub (vmax n) (vmin n));
  StreamplotSet := unit;
  mpl_streamplot := fun _ _ _ _ _ _ => Ok tt
|}.

(** Freshly created axes. *)
Definition new_axes (rt : Runtime) : Axes rt :=
  MkAxes rt None None None None None None [] [] [] None None None.

(* ================================================================== *)
(** ** What the specification says, in its own words *)

(** *** The translator: seven substitutions in a fixed order *)

Definition substitutions : list (string * string) :=
  [("^", "**"); ("sin", "np.sin"); ("cos", "np.cos"); ("tan", "np.tan");
   ("log", "np.log10"); ("ln", "np.log"); ("sqrt", "np.sqrt")]%string.

(** One literal, global pass: scanning from the left, every occurrence of
    [old] met is replaced by [new] and the scan goes on after it. *)
Inductive one_pass (old new : string) : string -> string -> Prop :=
| pass_end : one_pass old new EmptyString EmptyString
| pass_hit : forall rest out,
    one_pass old new rest out ->
    one_pass old new (old ++ rest)%string (new ++ out)%string
| pass_skip : forall c rest out,
    PyStr.startswith old (String c rest) = false ->
    one_pass old new rest out ->
    one_pass old new (String c rest) (String c out).

Fixpoint passes (rules : list (string * string)) (s t : string) : Prop :=
  match rules with
  | [] => s = t
  | (old, new) :: rules' =>
      exists m, one_pass old new s m /\ passes rules' m t
  end.

(** *** The failure payload: the diagnostic and nothing else *)

Definition is_failure_payload {rt : Runtime} (ax : Axes rt) : Prop :=
  texts rt ax = [MkText 0.5 0.5 diagnostic 12 "center" "center" "white"]
  /\ xticks rt ax = Some [] /\ yticks rt ax = Some []
  /\ lines rt ax = [] /\ streams rt ax = []
  /\ xlim rt ax = None /\ ylim rt ax = None /\ title rt ax = None.

(** *** Entries of a value, and the length of one direction vector *)

Definition entries (v : pyval) : list float64 :=
  match v with
  | PyNum r => [Fin r]
  | NpScalar f => [f]
  | NdArray a => flat a
  end.

Definition wf_pyval (v : pyval) : Prop :=
  match v with
  | NdArray a => wf_array a
  | _ => True
  end.

(** [sqrt(1**2 + v**2)] at one point (source lines 73-74) *)
Definition length_entry (v : float64) : float64 :=
  Float64.sqrt (Float64.add (Float64.power_nat (Fin 1) 2)
                            (Float64.power_nat v 2)).

(** [0.25 * w / length] at one point (source lines 75-76) *)
Definition normalized_entry (w len : float64) : float64 :=
  Float64.div (Float64.mul (Fin 0.25) w) len.

(** The finite entries of a list, as reals. *)
Fixpoint finite_values (l : list float64) : list R :=
  match l with
  | [] => []
  | Fin r :: l' => r :: finite_values l'
  | _ :: l' => finite_values l'
  end.

Definition is_least (m : R) (l : list R) : Prop :=
  In m l /\ forall e, In e l -> (m <= e)%R.

Definition is_greatest (m : R) (l : list R) : Prop :=
  In m l /\ forall e, In e l -> (e <= m)%R.

(** *** Failing points of a calculator expression

    The value an expression has at one sample point, and the points at
    which one of its operations is undefined: a division by zero, the
    logarithm of a number that is not positive, the square root of a
    negative number. *)

Fixpoint eval_point (e : Calc.expr) (xv yv : float64) : float64 :=
  match e with
  | Calc.Num d k => Fin (Calc.literal d k)
  | Calc.VarX => xv
  | Calc.VarY => yv
  | Calc.Call f a => Calc.ufunc_of f (eval_point a xv yv)
  | Calc.BinOp o l r => Py.float_op o (eval_point l xv yv) (eval_point r xv yv)
  | Calc.Power l n => Float64.power_nat (eval_point l xv yv) n
  | Calc.UAdd a => eval_point a xv yv
  | Calc.USub a => Float64.neg (eval_point a xv yv)
  end.

Definition outside_domain (f : Calc.npfunc) (v : float64) : Prop :=
  match f, v with
  | (Calc.np_log | Calc.np_log10), Fin r => (r <= 0)%R
  | Calc.np_sqrt, Fin r => (r < 0)%R
  | _, _ => False
  end.

Fixpoint fault_at (e : Calc.expr) (xv yv : float64) : Prop :=
  match e with
  | Calc.Num _ _ | Calc.VarX | Calc.VarY => False
  | Calc.Call f a =>
      fault_at a xv yv \/ outside_domain f (eval_point a xv yv)
  | Calc.BinOp o l r =>
      fault_at l xv yv \/ fault_at r xv yv
      \/ (o = Div /\ eval_point r xv yv = Fin 0)
  | Calc.Power l _ | Calc.UAdd l | Calc.USub l => fault_at l xv yv
  end.

(** The expression mentions [x] or [y]. *)
Fixpoint mentions_variable (e : Calc.expr) : bool :=
  match e with
  | Calc.Num _ _ => false
  | Calc.VarX | Calc.VarY => true
  | Calc.Call _ a | Calc.Power a _ | Calc.UAdd a | Calc.USub a =>
      mentions_variable a
  | Calc.BinOp _ l r => mentions_variable l || mentions_variable r
  end.

(** The value of [v] at the point of buffer index [k]: a scalar is the
    same at every point. *)
Definition value_at (v : pyval) (k : nat) : option float64 :=
  match v with
  | PyNum r => Some (Fin r)
  | NpScalar f => Some f
  | NdArray a => nth_error (flat a) k
  end.

(** *** The polar grid

    The points of the polar grid, one per pair of a radius and an angle. *)
Definition polar_point (rs ts : list float64) (k : nat) : float64 * float64 :=
  (Float64.mul (nth k rs NaN) (Float64.cos (nth k ts NaN)),
   Float64.mul (nth k rs NaN) (Float64.sin (nth k ts NaN))).

(** *** Raw expressions in calculator notation

    The vocabulary of a raw expression: the six function names, [^], the
    variables, the digits, the parentheses and the arithmetic operators;
    the decimal point and the blank are let in as well. *)

Inductive calc_token : Type :=
| K_sin | K_cos | K_tan | K_log | K_ln | K_sqrt
| K_pow | K_x | K_y
| K_0 | K_1 | K_2 | K_3 | K_4 | K_5 | K_6 | K_7 | K_8 | K_9
| K_lparen | K_rparen | K_plus | K_minus | K_times | K_div
| K_point | K_blank.

Definition token_text (t : calc_token) : string :=
  match t with
  | K_sin => "sin" | K_cos => "cos" | K_tan => "tan"
  | K_log => "log" | K_ln => "ln" | K_sqrt => "sqrt"
  | K_pow => "^" | K_x => "x" | K_y => "y"
  | K_0 => "0" | K_1 => "1" | K_2 => "2" | K_3 => "3" | K_4 => "4"
  | K_5 => "5" | K_6 => "6" | K_7 => "7" | K_8 => "8" | K_9 => "9"
  | K_lparen => "(" | K_rparen => ")"
  | K_plus => "+" | K_minus => "-" | K_times => "*" | K_div => "/"
  | K_point => "." | K_blank => " "
  end%string.

Fixpoint join (l : list string) : string :=
  match l with
  | [] => EmptyString
  | s :: l' => (s ++ join l')%string
  end.

(** The raw expression spelled by a sequence of tokens. *)
Definition raw_of (ts : list calc_token) : string := join (map token_text ts).

Definition keywords : list string :=
  ["sin"; "cos"; "tan"; "log"; "ln"; "sqrt"]%string.

Definition has_caret (s : string) : Prop :=
  exists pre post, s = (pre ++ "^" ++ post)%string.

(** Every occurrence of [kw] in [s] comes right after ["np."]. *)
Definition namespaced (kw s : string) : Prop :=
  forall pre post, s = (pre ++ kw ++ post)%string ->
  exists pre', pre = (pre' ++ "np.")%string.

(** The text of a token after the first [j] substitutions. *)
Definition stage (j : nat) (t : calc_token) : string :=
  fold_left (fun s r => PyStr.replace (fst r) (snd r) s)
            (firstn j substitutions) (token_text t).

(** Reading [s] after [before]: wherever [kw] starts, ["np."] has just
    been read. *)
Fixpoint guarded (kw before s : string) : Prop :=
  match s with
  | EmptyString => True
  | String c s' =>
      (PyStr.startswith kw s = true ->
       exists p, before = (p ++ "np.")%string)
      /\ guarded kw (before ++ String c EmptyString)%string s'
  end.

(** *** The coordinate systems the plotter knows *)

Definition supported_systems : list string :=
  ["Cartesian"; "Polar"; "Log-Polar"; "Log-Log"; "Hexagonal";
   "Complex Plane"]%string.

(** A value that is an array of shape [(m, n)], with its buffer. *)
Definition grid_value (m n : nat) (v : pyval) : Prop :=
  exists a, v = NdArray a /\ shape a = (m, n) /\ wf_array a.

(** What each token of the calculator notation becomes. *)
Definition numpy_text (t : calc_token) : string :=
  match t with
  | K_sin => "np.sin" | K_cos => "np.cos" | K_tan => "np.tan"
  | K_log => "np.log10" | K_ln => "np.log" | K_sqrt => "np.sqrt"
  | K_pow => "**"
  | other => token_text other
  end%string.

(* ================================================================== *)
(** ** Facts about the translator *)

Module PyStrFacts.
Import PyStr.

Lemma startswith_app (old rest : string) :
  startswith old (old ++ rest) = true.
Proof.
  induction old as [|a old IH]; simpl; [reflexivity|].
  now rewrite Ascii.eqb_refl, IH.
Qed.

Lemma startswith_split (old s : string) :
  startswith old s = true -> exists rest, s = (old ++ rest)%string.
Proof.
  revert s; induction old as [|a old IH]; intros s H; simpl in *.
  - now exists s.
  - destruct s as [|b s]; [discriminate|].
    apply andb_true_iff in H as [Hab Hs].
    apply Ascii.eqb_eq in Hab; subst b.
    destruct (IH _ Hs) as [rest ->]. now exists rest.
Qed.

(** Dropping the rest of a matched occurrence resumes the scan behind it. *)
Lemma replace_scan_skip (old new p rest : string) :
  replace_scan old new (String.length p) (p ++ rest) = replace_scan old new 0 rest.
Proof.
  induction p as [|c p IH]; simpl; [reflexivity|exact IH].
Qed.

Lemma replace_scan_hit (old new : string) (a : ascii) (old' rest : string) :
  old = String a old' ->
  replace_scan old new 0 (old ++ rest)
  = (new ++ replace_scan old new 0 rest)%string.
Proof.
  intros ->.
  assert (H : startswith (String a old') (String a (old' ++ rest)) = true)
    by apply (startswith_app (String a old') rest).
  cbn [replace_scan append]. rewrite H.
  replace (String.length (String a old') - 1) with (String.length old')
    by (simpl; lia).
  now rewrite replace_scan_skip.
Qed.

Lemma replace_scan_miss (old new : string) (c : ascii) (s : string) :
  startswith old (String c s) = false ->
  replace_scan old new 0 (String c s) = String c (replace_scan old new 0 s).
Proof. intros H. cbn [replace_scan]. now rewrite H. Qed.

Lemma append_length (s t : string) :
  String.length (s ++ t) = String.length s + String.length t.
Proof. induction s; simpl; congruence. Qed.

(** [str.replace] makes one pass. *)
Lemma replace_one_pass (old new s : string) :
  old <> EmptyString -> one_pass old new s (replace old new s).
Proof.
  intros Hne.
  destruct old as [|a old']; [contradiction|].
  unfold replace.
  remember (String.length s) as n eqn:Hn.
  revert s Hn.
  induction n as [n IH] using lt_wf_ind; intros s Hn.
  destruct s as [|c s].
  - constructor.
  - destruct (startswith (String a old') (String c s)) eqn:Hs.
    + destruct (startswith_split _ _ Hs) as [rest Hrest].
      rewrite Hrest.
      rewrite (replace_scan_hit _ new a old' rest eq_refl).
      constructor.
      apply (IH (String.length rest)); [|reflexivity].
      subst n. rewrite Hrest, append_length. simpl. lia.
    + rewrite (replace_scan_miss _ _ _ _ Hs).
      constructor; [exact Hs|].
      apply (IH (String.length s)); [|reflexivity].
      subst n. simpl. lia.
Qed.

Lemma append_inj_l (p s t : string) : (p ++ s)%string = (p ++ t)%string -> s = t.
Proof. induction p; simpl; intros H; [exact H|]. injection H. auto. Qed.

(** A pass has one result, the one [str.replace] computes. *)
Lemma one_pass_replace (old new s t : string) :
  old <> EmptyString -> one_pass old new s t -> t = replace old new s.
Proof.
  intros Hne H.
  destruct old as [|a old']; [contradiction|].
  unfold replace.
  induction H as [|rest out H IH|c rest out Hs H IH].
  - reflexivity.
  - rewrite (replace_scan_hit _ new a old' rest eq_refl). now rewrite IH.
  - rewrite (replace_scan_miss _ _ _ _ Hs). now rewrite IH.
Qed.

End PyStrFacts.

(** C4. The translator makes exactly the seven literal, global passes of
    the specification, in its order: [^], [sin], [cos], [tan], [log],
    [ln], [sqrt]; and on ["x^2 + sin(x)"] both the power and the sine
    are rewritten, giving ["x**2 + np.sin(x)"]. *)
Theorem ti84_to_numpy_seven_passes :
  (forall raw, passes substitutions raw (ti84_to_numpy raw))
  /\ (forall raw t, passes substitutions raw t -> t = ti84_to_numpy raw)
  /\ ti84_to_numpy "x^2 + sin(x)" = "x**2 + np.sin(x)"%string.
Proof.
  split; [|split].
  - intros raw. unfold ti84_to_numpy, substitutions. cbn [passes].
    repeat (eexists; split;
            [apply PyStrFacts.replace_one_pass; discriminate|]).
    reflexivity.
  - intros raw t H. unfold substitutions in H. cbn [passes] in H.
    repeat match goal with
           | H : exists _, _ |- _ => destruct H as [? [? H]]
           end.
    repeat match goal with
           | H : one_pass _ _ _ _ |- _ =>
               apply PyStrFacts.one_pass_replace in H; [subst|discriminate]
           end.
    reflexivity.
  - reflexivity.
Qed.

(* ================================================================== *)
(** ** Facts about the grid *)

(** C8. For all extents the grid of the Complex Plane system is the grid
    of the Cartesian system: the same X array and the same Y array. *)
Theorem complex_plane_grid_is_cartesian (x_max y_max : R) :
  build_grid "Complex Plane" x_max y_max = build_grid "Cartesian" x_max y_max
  /\ exists X Y,
       build_grid "Cartesian" x_max y_max = Ok (X, Y)
       /\ build_grid "Complex Plane" x_max y_max = Ok (X, Y).
Proof.
  split; [reflexivity|].
  eexists; eexists; split; reflexivity.
Qed.

(* ================================================================== *)
(** ** Facts about the evaluator and the plotter *)

Section PlotterFacts.

Variable rt : Runtime.

Lemma failure_payload_is_failure (ax : Axes rt) :
  is_failure_payload (failure_payload ax).
Proof. repeat split. Qed.

Lemma generate_plot_compile_error (ax : Axes rt) (raw : string) (x_max y_max : R)
    (cmap_name : string) (streamplot : bool) (coord_system : string) (e : exn) :
  py_compile rt (ti84_to_numpy raw) = Raise e ->
  generate_plot rt ax raw x_max y_max cmap_name streamplot coord_system
  = (Raise e, clear ax).
Proof.
  intros H. unfold generate_plot, safe_slope_func. now rewrite H.
Qed.

Lemma generate_plot_all_nan (ax : Axes rt) (raw : string) (x_max y_max : R)
    (cmap_name : string) (streamplot : bool) (coord_system : string)
    (c : code rt) (g : ndarray * ndarray) (V : pyval) :
  py_compile rt (ti84_to_numpy raw) = Ok c ->
  build_grid coord_system x_max y_max = Ok g ->
  func rt c (fst g) (snd g) = Ok V ->
  Np.isnan_all V = true ->
  generate_plot rt ax raw x_max y_max cmap_name streamplot coord_system
  = (Ok tt, failure_payload (clear ax)).
Proof.
  intros Hc Hg HV Hnan.
  unfold generate_plot, safe_slope_func. rewrite Hc. cbn [bind].
  unfold plot_body, bindM, lift. rewrite Hg, HV, Hnan.
  reflexivity.
Qed.

End PlotterFacts.

(** *** Running the calculator fragment *)

Lemma literal_zero : Calc.literal 0 0 = 0%R.
Proof. unfold Calc.literal. simpl. lra. Qed.

Lemma literal_int (d : N) : Calc.literal d 0 = IZR (Z.of_N d).
Proof. unfold Calc.literal. simpl. lra. Qed.

(** [1/0] between Python numbers raises, whatever the arrays. *)
Lemma eval_one_over_zero (x y : ndarray) :
  Calc.eval (Calc.BinOp Div (Calc.Num 1 0) (Calc.Num 0 0)) x y
  = Raise (Exn ZeroDivisionError "division by zero").
Proof.
  cbn [Calc.eval bind Py.binary Py.num_op].
  destruct (Req_dec_T (Calc.literal 0 0) 0) as [_|H]; [reflexivity|].
  exfalso. apply H, literal_zero.
Qed.

Lemma isnan_all_full_like (x : ndarray) :
  Np.isnan_all (NdArray (Np.full_like x NaN)) = true.
Proof.
  unfold Np.isnan_all, Np.full_like. cbn [flat].
  induction (nrows x * ncols x); simpl; auto.
Qed.

(** C1 (the code lets the error out). On ["sin(x"], whose translation
    does not compile, the syntax error raised by [safe_slope_func] leaves
    [generate_plot]: the call happens before the [try], and the axes are
    left cleared, without the diagnostic. *)
Theorem unbalanced_parenthesis_escapes (ax : Axes calc_runtime)
    (x_max y_max : R) (cmap_name : string) (streamplot : bool)
    (coord_system : string) :
  py_compile calc_runtime (ti84_to_numpy "sin(x") = Raise Calc.syntax_error
  /\ generate_plot calc_runtime ax "sin(x" x_max y_max cmap_name streamplot
       coord_system
     = (Raise Calc.syntax_error, clear ax)
  /\ ~ is_failure_payload (clear ax).
Proof.
  assert (H : py_compile calc_runtime (ti84_to_numpy "sin(x")
              = Raise Calc.syntax_error) by reflexivity.
  split; [exact H|split].
  - now apply generate_plot_compile_error.
  - intros [Htexts _]. discriminate Htexts.
Qed.

(** C3. Whenever the evaluated field [V] is [nan] at every entry, the
    call returns with the axes holding the fixed failure payload: the
    diagnostic text, empty ticks, and no segment or stream line. *)
Theorem all_nan_field_gives_failure_payload (rt : Runtime) (ax : Axes rt)
    (raw : string) (x_max y_max : R) (cmap_name : string) (streamplot : bool)
    (coord_system : string) (c : code rt) (g : ndarray * ndarray) (V : pyval) :
  py_compile rt (ti84_to_numpy raw) = Ok c ->
  build_grid coord_system x_max y_max = Ok g ->
  func rt c (fst g) (snd g) = Ok V ->
  Np.isnan_all V = true ->
  exists ax',
    generate_plot rt ax raw x_max y_max cmap_name streamplot coord_system
    = (Ok tt, ax')
    /\ is_failure_payload ax'.
Proof.
  intros Hc Hg HV Hnan.
  exists (failure_payload (clear ax)). split.
  - now apply generate_plot_all_nan with (c := c) (g := g) (V := V).
  - apply failure_payload_is_failure.
Qed.

(** The always-undefined [1/0] on the Cartesian grid of extent 10. *)
Lemma all_nan_field_gives_failure_payload_witness :
  let c := Calc.BinOp Div (Calc.Num 1 0) (Calc.Num 0 0) in
  let g := Np.meshgrid (Np.arange (- 10) (10 + step) step)
                       (Np.arange (- 10) (10 + step) step) in
  let V := NdArray (Np.full_like (fst g) NaN) in
  py_compile calc_runtime (ti84_to_numpy "1/0") = Ok c
  /\ build_grid "Cartesian" 10 10 = Ok g
  /\ func calc_runtime c (fst g) (snd g) = Ok V
  /\ Np.isnan_all V = true
  /\ exists ax',
       generate_plot calc_runtime (new_axes calc_runtime) "1/0" 10 10
         "viridis" false "Cartesian" = (Ok tt, ax')
       /\ is_failure_payload ax'.
Proof.
  intros c g V.
  assert (Hc : py_compile calc_runtime (ti84_to_numpy "1/0") = Ok c)
    by reflexivity.
  assert (Hg : build_grid "Cartesian" 10 10 = Ok g) by reflexivity.
  assert (HV : func calc_runtime c (fst g) (snd g) = Ok V).
  { unfold func. cbn [py_eval calc_runtime]. unfold c.
    now rewrite eval_one_over_zero. }
  assert (Hnan : Np.isnan_all V = true) by apply isnan_all_full_like.
  repeat (split; [assumption|]).
  exact (all_nan_field_gives_failure_payload calc_runtime
           (new_axes calc_runtime) "1/0" 10 10 "viridis" false "Cartesian"
           c g V Hc Hg HV Hnan).
Defined.

(** *** Shapes of what the fragment evaluates to *)

Lemma binary_shape (o : arith) (a b v : pyval) (sh : list nat) :
  (shape_of a = [] \/ shape_of a = sh) ->
  (shape_of b = [] \/ shape_of b = sh) ->
  Py.binary o a b = Ok v ->
  (shape_of v = [] \/ shape_of v = sh)
  /\ (shape_of a = sh \/ shape_of b = sh -> shape_of v = sh).
Proof.
  intros Ha Hb H.
  destruct a as [x|f|c], b as [y|g|d]; cbn [Py.binary] in H;
    try (destruct (Py.num_op o x y); cbn [bind] in H; [|discriminate]);
    try (injection H as <-; cbn [shape_of Np.map nrows ncols shape] in *;
         intuition congruence).
  unfold Np.broadcast in H. cbn [shape_of] in Ha, Hb.
  destruct Ha as [Ha|Ha]; [discriminate|].
  destruct Hb as [Hb|Hb]; [discriminate|].
  assert (Hr : nrows d = nrows c) by congruence.
  assert (Hc : ncols d = ncols c) by congruence.
  rewrite Hr, Hc in H. unfold Np.broadcast_dim in H.
  rewrite !Nat.eqb_refl in H. cbn [bind] in H.
  injection H as <-. cbn [shape_of nrows ncols shape fst snd].
  intuition congruence.
Qed.

(** On arrays [x] and [y] of shape [(m, n)] the value is a scalar or has
    that shape, and it has that shape as soon as a variable occurs. *)
Lemma eval_shape (e : Calc.expr) (x y : ndarray) (m n : nat) (v : pyval) :
  shape x = (m, n) -> shape y = (m, n) ->
  Calc.eval e x y = Ok v ->
  (shape_of v = [] \/ shape_of v = [m; n])
  /\ (mentions_variable e = true -> shape_of v = [m; n]).
Proof.
  intros Hx Hy. revert v.
  induction e as [d k| | |f a IH|o l IHl r IHr|l IH k|a IH|a IH];
    intros v H; cbn [Calc.eval mentions_variable] in *.
  - injection H as <-. cbn. split; [auto|discriminate].
  - injection H as <-. cbn. unfold nrows, ncols. rewrite Hx. cbn. auto.
  - injection H as <-. cbn. unfold nrows, ncols. rewrite Hy. cbn. auto.
  - destruct (Calc.eval a x y) as [w|]; cbn [bind] in H; [|discriminate].
    injection H as <-. destruct (IH w eq_refl) as [H1 H2].
    destruct w; cbn [Np.ufunc shape_of Np.map nrows ncols shape] in *;
      intuition congruence.
  - destruct (Calc.eval l x y) as [a|]; cbn [bind] in H; [|discriminate].
    destruct (Calc.eval r x y) as [b|]; cbn [bind] in H; [|discriminate].
    destruct (IHl a eq_refl) as [Hl1 Hl2].
    destruct (IHr b eq_refl) as [Hr1 Hr2].
    destruct (binary_shape o a b v [m; n] Hl1 Hr1 H) as [H1 H2].
    split; [exact H1|]. intros Hm. apply orb_true_iff in Hm. apply H2.
    intuition auto.
  - destruct (Calc.eval l x y) as [w|]; cbn [bind] in H; [|discriminate].
    injection H as <-. destruct (IH w eq_refl) as [H1 H2].
    destruct w; cbn [Py.power shape_of Np.map nrows ncols shape] in *;
      intuition congruence.
  - auto.
  - destruct (Calc.eval a x y) as [w|]; cbn [bind] in H; [|discriminate].
    injection H as <-. destruct (IH w eq_refl) as [H1 H2].
    destruct w; cbn [Py.negative shape_of Np.map nrows ncols shape] in *;
      intuition congruence.
Qed.

(** A Python number has no [flatten]: when the field is one, drawing the
    segments raises. *)
Lemma plot_body_python_number (rt : Runtime)
    (slope_func : ndarray -> ndarray -> result pyval) (raw : string)
    (x_max y_max : R) (cmap_name coord_system : string) (ax : Axes rt) :
  (forall X Y, exists r, slope_func X Y = Ok (PyNum r)) ->
  exists e ax',
    plot_body rt slope_func raw x_max y_max cmap_name false coord_system ax
    = (Raise e, ax').
Proof.
  intros Hnum.
  unfold plot_body, bindM, lift, call, ret, raise.
  destruct (build_grid coord_system x_max y_max) as [g|e]; [|eauto].
  destruct (Hnum (fst g) (snd g)) as [r ->].
  cbn [Np.isnan_all Np.ones_like vector_length normalized segment_end
       Py.power Py.binary Py.num_op bind Np.ufunc amin amax Py.flatten].
  destruct (Np.min (fst g)); [|eauto].
  destruct (Np.max (fst g)); [|eauto].
  destruct (Np.min (snd g)); [|eauto].
  destruct (Np.max (snd g)); [|eauto].
  destruct (colormaps rt cmap_name); eauto.
Qed.

Lemma eval_one_fifth (x y : ndarray) :
  Calc.eval (Calc.BinOp Div (Calc.Num 1 0) (Calc.Num 5 0)) x y
  = Ok (PyNum (Calc.literal 1 0 / Calc.literal 5 0)).
Proof.
  cbn [Calc.eval bind Py.binary Py.num_op].
  destruct (Req_dec_T (Calc.literal 5 0) 0) as [H|_]; [|reflexivity].
  exfalso. rewrite literal_int in H. simpl in H. lra.
Qed.

(** C7 (the code returns a scalar). On ["(1/5)"], which compiles and
    raises nothing, the evaluator returns the Python number [0.2] for every
    grid: its shape is [()], not the [(m, n)] of the grid, and the plotter,
    which goes on to call [V.flatten()], ends in the failure payload. *)
Theorem constant_expression_yields_a_scalar (X Y : ndarray)
    (ax : Axes calc_runtime) (x_max y_max : R) (cmap_name coord_system : string) :
  exists c r,
    py_compile calc_runtime (ti84_to_numpy "(1/5)") = Ok c
    /\ func calc_runtime c X Y = Ok (PyNum r)
    /\ shape_of (PyNum r) = []
    /\ shape_of (PyNum r) <> [nrows X; ncols X]
    /\ exists ax',
         generate_plot calc_runtime ax "(1/5)" x_max y_max cmap_name false
           coord_system = (Ok tt, ax')
         /\ is_failure_payload ax'.
Proof.
  exists (Calc.BinOp Div (Calc.Num 1 0) (Calc.Num 5 0)).
  exists (Calc.literal 1 0 / Calc.literal 5 0)%R.
  assert (Hc : py_compile calc_runtime (ti84_to_numpy "(1/5)")
               = Ok (Calc.BinOp Div (Calc.Num 1 0) (Calc.Num 5 0)))
    by reflexivity.
  assert (Hf : forall X Y,
             func calc_runtime (Calc.BinOp Div (Calc.Num 1 0) (Calc.Num 5 0)) X Y
             = Ok (PyNum (Calc.literal 1 0 / Calc.literal 5 0))).
  { intros X' Y'. unfold func. cbn [py_eval calc_runtime].
    now rewrite eval_one_fifth. }
  split; [exact Hc|]. split; [apply Hf|]. split; [reflexivity|].
  split; [discriminate|].
  unfold generate_plot, safe_slope_func. rewrite Hc. cbn [bind].
  destruct (plot_body_python_number calc_runtime
              (func calc_runtime (Calc.BinOp Div (Calc.Num 1 0) (Calc.Num 5 0)))
              "(1/5)" x_max y_max cmap_name coord_system (clear ax))
    as [e [ax' ->]].
  { intros X' Y'. eexists. apply Hf. }
  eexists. split; [reflexivity|apply failure_payload_is_failure].
Qed.

(* ================================================================== *)
(** ** Facts about arrays *)

Module NpFacts.

Lemma map_seq_shift {A : Type} (g : nat -> A) (s n : nat) :
  map (fun j => g (s + j)) (seq 0 n) = map g (seq s n).
Proof.
  revert s. induction n as [|n IH]; intros s; [reflexivity|].
  cbn [seq map]. rewrite Nat.add_0_r. f_equal.
  rewrite <- seq_shift, map_map.
  rewrite <- (IH (S s)). apply map_ext. intros j. f_equal. lia.
Qed.

(** Row after row of a row-major buffer is the buffer. *)
Lemma flat_map_rows {A : Type} (g : nat -> A) (m n : nat) :
  flat_map (fun i => map (fun j => g (i * n + j)) (seq 0 n)) (seq 0 m)
  = map g (seq 0 (m * n)).
Proof.
  induction m as [|m IH]; [reflexivity|].
  rewrite seq_S, flat_map_app, IH. cbn [flat_map plus].
  rewrite app_nil_r, map_seq_shift.
  replace (S m * n) with (m * n + n) by lia.
  now rewrite seq_app, map_app.
Qed.

Lemma item_in_range (a : ndarray) (i j : nat) :
  i < nrows a -> j < ncols a ->
  Np.item a i j = nth (i * ncols a + j) (flat a) NaN.
Proof.
  intros Hi Hj. unfold Np.item.
  destruct (Nat.eqb_spec (nrows a) 1) as [E1|_];
    destruct (Nat.eqb_spec (ncols a) 1) as [E2|_];
    f_equal; lia.
Qed.

(** Between two arrays of one shape, broadcasting is entry by entry. *)
Lemma broadcast_same_shape (f : float64 -> float64 -> float64) (a b : ndarray) :
  shape a = shape b ->
  Np.broadcast f a b
  = Ok (NdArr (shape a)
          (map (fun k => f (nth k (flat a) NaN) (nth k (flat b) NaN))
               (seq 0 (nrows a * ncols a)))).
Proof.
  intros Hs. unfold Np.broadcast.
  assert (Hr : nrows b = nrows a) by (unfold nrows; now rewrite Hs).
  assert (Hc : ncols b = ncols a) by (unfold ncols; now rewrite Hs).
  rewrite Hr, Hc. unfold Np.broadcast_dim. rewrite !Nat.eqb_refl.
  f_equal. f_equal.
  - unfold nrows, ncols. now destruct (shape a).
  - rewrite <- (flat_map_rows
                  (fun k => f (nth k (flat a) NaN) (nth k (flat b) NaN))).
    rewrite !flat_map_concat_map. f_equal.
    apply map_ext_in. intros i Hi. apply in_seq in Hi.
    apply map_ext_in. intros j Hj. apply in_seq in Hj.
    rewrite !item_in_range by lia. now rewrite Hc.
Qed.

Lemma nth_error_map_seq {A : Type} (g : nat -> A) (n k : nat) :
  k < n -> nth_error (map g (seq 0 n)) k = Some (g k).
Proof.
  intros Hk. rewrite nth_error_map, nth_error_seq.
  apply Nat.ltb_lt in Hk. now rewrite Hk.
Qed.

End NpFacts.

(* ================================================================== *)
(** ** Facts about float64 *)

Module Float64Facts.
Import Float64.

Lemma Rsign_pos (r : R) : (0 < r)%R -> Rsign r = Gt.
Proof.
  intros H. unfold Rsign.
  destruct (Rlt_dec r 0); [lra|]. destruct (Rlt_dec 0 r); [reflexivity|lra].
Qed.

Lemma Rsign_neg (r : R) : (r < 0)%R -> Rsign r = Lt.
Proof. intros H. unfold Rsign. destruct (Rlt_dec r 0); [reflexivity|lra]. Qed.

Lemma Rsign_zero : Rsign 0 = Eq.
Proof.
  unfold Rsign.
  destruct (Rlt_dec 0 0); [lra|]. reflexivity.
Qed.

Lemma Rsign_Eq (r : R) : Rsign r = Eq -> r = 0%R.
Proof.
  unfold Rsign. destruct (Rlt_dec r 0); [discriminate|].
  destruct (Rlt_dec 0 r); [discriminate|]. intros _. lra.
Qed.

Lemma div_fin (x y : R) : y <> 0%R -> div (Fin x) (Fin y) = Fin (x / y).
Proof.
  intros Hy. unfold div.
  destruct (Rsign y) eqn:E; try reflexivity.
  apply Rsign_Eq in E. contradiction.
Qed.

Lemma div_pos_by_zero (x : R) : (0 < x)%R -> div (Fin x) (Fin 0) = PInf.
Proof. intros H. unfold div. now rewrite Rsign_zero, (Rsign_pos x H). Qed.

Lemma sqrt_fin (x : R) : (0 <= x)%R -> sqrt (Fin x) = Fin (R_sqrt.sqrt x).
Proof. intros H. unfold sqrt. destruct (Rlt_dec x 0); [lra|reflexivity]. Qed.

End Float64Facts.

(* ================================================================== *)
(** ** The fragment, point by point *)

Lemma num_op_float_op (o : arith) (a b r : R) :
  Py.num_op o a b = Ok r -> Py.float_op o (Fin a) (Fin b) = Fin r.
Proof.
  destruct o; cbn [Py.num_op Py.float_op]; intros H.
  - now injection H as <-.
  - injection H as <-. cbn. f_equal.
  - now injection H as <-.
  - destruct (Req_dec_T b 0) as [|Hb]; [discriminate|].
    injection H as <-. now apply Float64Facts.div_fin.
Qed.

Lemma value_at_map (f : float64 -> float64) (c : ndarray) (k : nat) (v : float64) :
  value_at (NdArray c) k = Some v ->
  value_at (NdArray (Np.map f c)) k = Some (f v).
Proof.
  cbn [value_at Np.map flat]. intros H. now rewrite nth_error_map, H.
Qed.

(** C2, as stated, fails: in [1/x] the point [x = 0] is a failing point
    (a division by zero), yet the evaluator returns [inf] there, not
    [nan]. *)
Lemma nan_exactly_at_failing_points_fails :
  let x := NdArr (1, 2) [Fin 0; Fin 1] in
  exists c,
    py_compile calc_runtime (ti84_to_numpy "1/x") = Ok c
    /\ ~ (forall v k f,
            func calc_runtime c x x = Ok v ->
            value_at v k = Some f ->
            (fault_at c (nth k (flat x) NaN) (nth k (flat x) NaN)
             <-> Float64.isnan f = true)).
Proof.
  intros x. exists (Calc.BinOp Div (Calc.Num 1 0) Calc.VarX).
  split; [reflexivity|].
  intros H.
  specialize (H (NdArray (Np.map (Py.float_op Div (Fin (Calc.literal 1 0))) x))
                0 PInf eq_refl).
  assert (Hv : value_at
                 (NdArray (Np.map (Py.float_op Div (Fin (Calc.literal 1 0))) x)) 0
               = Some PInf).
  { cbn [value_at Np.map flat x map nth_error Py.float_op].
    rewrite Float64Facts.div_pos_by_zero; [reflexivity|].
    rewrite literal_int. simpl. lra. }
  destruct (H Hv) as [Hfault _].
  assert (Hnan : Float64.isnan PInf = true).
  { apply Hfault. cbn. right. right. split; reflexivity. }
  discriminate Hnan.
Qed.

(** C2, amended. When [eval] raises an exception derived from
    [Exception], the evaluator does not let it through: it returns an array
    of the shape of [x] with [nan] at every entry, whichever points were at
    fault.  When [eval] returns a value, the evaluator returns that value
    unchanged, so a point is [nan] there only if the numeric library made
    it so. *)
Theorem evaluator_contains_exceptions (rt : Runtime) (c : code rt)
    (x y : ndarray) :
  (forall e, py_eval rt c x y = Raise e ->
     func rt c x y = Ok (NdArray (Np.full_like x NaN))
     /\ shape (Np.full_like x NaN) = shape x
     /\ Np.isnan_all (NdArray (Np.full_like x NaN)) = true)
  /\ (forall v, py_eval rt c x y = Ok v -> func rt c x y = Ok v).
Proof.
  split.
  - intros e H. unfold func. rewrite H. cbn [try_except].
    split; [reflexivity|]. split; [reflexivity|apply isnan_all_full_like].
  - intros v H. unfold func. now rewrite H.
Qed.

(** [1/0], which raises on every grid, on a grid of two points. *)
Lemma evaluator_contains_exceptions_witness :
  let x := NdArr (1, 2) [Fin 0; Fin 1] in
  let c := Calc.BinOp Div (Calc.Num 1 0) (Calc.Num 0 0) in
  py_eval calc_runtime c x x = Raise (Exn ZeroDivisionError "division by zero")
  /\ func calc_runtime c x x = Ok (NdArray (Np.full_like x NaN)).
Proof.
  intros x c.
  assert (H : py_eval calc_runtime c x x
              = Raise (Exn ZeroDivisionError "division by zero"))
    by apply eval_one_over_zero.
  split; [exact H|].
  exact (proj1 (proj1 (evaluator_contains_exceptions calc_runtime c x x) _ H)).
Defined.

(* ================================================================== *)
(** ** Facts about the direction vectors and the segments *)

Lemma map_seq_nth {A B : Type} (h : A -> B) (l : list A) (d : A) :
  map (fun k => h (nth k l d)) (seq 0 (List.length l)) = map h l.
Proof.
  induction l as [|a l IH]; [reflexivity|].
  cbn [List.length seq map nth]. f_equal.
  rewrite <- seq_shift, map_map. exact IH.
Qed.

Lemma length_entry_finite (r : R) :
  exists l, length_entry (Fin r) = Fin l /\ (1 <= l)%R.
Proof.
  unfold length_entry. cbn [Float64.power_nat Float64.add].
  assert (H : (1 <= 1 ^ 2 + r ^ 2)%R) by nra.
  rewrite Float64Facts.sqrt_fin by lra.
  eexists. split; [reflexivity|].
  rewrite <- sqrt_1 at 1. apply sqrt_le_1_alt. exact H.
Qed.

Lemma length_entry_nonzero (v : float64) : length_entry v <> Fin 0.
Proof.
  destruct v as [| | |r]; try discriminate.
  destruct (length_entry_finite r) as [l [-> Hl]].
  intros H. injection H as ->. lra.
Qed.

Lemma vector_length_ufunc (V : pyval) :
  wf_pyval V ->
  vector_length (Np.ones_like V) V = Ok (Np.ufunc length_entry V).
Proof.
  intros Hwf. destruct V as [r|f|a]; try reflexivity.
  cbn [wf_pyval] in Hwf. unfold wf_array in Hwf.
  unfold vector_length.
  cbn [Np.ones_like Py.power Py.binary].
  rewrite NpFacts.broadcast_same_shape by reflexivity.
  cbn [bind Np.ufunc]. unfold Np.map, Np.full_like, nrows, ncols in *.
  cbn [shape flat] in *.
  do 3 f_equal. rewrite map_map.
  rewrite <- (map_seq_nth length_entry (flat a) NaN), Hwf.
  apply map_ext_in. intros k Hk. apply in_seq in Hk.
  unfold length_entry. cbn [Py.float_op]. do 2 f_equal.
  - rewrite (nth_indep _ NaN (Float64.power_nat (Fin 1) 2))
      by (rewrite length_map, repeat_length; lia).
    rewrite (map_nth (fun v => Float64.power_nat v 2)).
    f_equal. apply nth_repeat.
  - rewrite (nth_indep _ NaN (Float64.power_nat NaN 2))
      by (rewrite length_map; lia).
    now rewrite (map_nth (fun v => Float64.power_nat v 2)).
Qed.

(** C10. The divisor of the normalisation is never zero: with [U] fixed
    to one, the length computed on source line 74 is [sqrt(1 + v**2)] at
    every entry [v] of the field, which is at least 1 when [v] is finite,
    [nan] when [v] is [nan], and in no case 0. *)
Theorem vector_length_never_zero (V : pyval) :
  wf_pyval V ->
  vector_length (Np.ones_like V) V = Ok (Np.ufunc length_entry V)
  /\ (forall l, In l (entries (Np.ufunc length_entry V)) -> l <> Fin 0)
  /\ (forall r, exists l, length_entry (Fin r) = Fin l /\ (1 <= l)%R)
  /\ length_entry NaN = NaN
  /\ (forall v, length_entry v <> Fin 0).
Proof.
  intros Hwf. split; [now apply vector_length_ufunc|].
  split; [|split; [exact length_entry_finite|split;
                   [reflexivity|exact length_entry_nonzero]]].
  intros l Hl.
  destruct V as [r|f|a]; cbn [Np.ufunc entries Np.map flat] in Hl.
  - destruct Hl as [<-|[]]. apply length_entry_nonzero.
  - destruct Hl as [<-|[]]. apply length_entry_nonzero.
  - apply in_map_iff in Hl as [v [<- _]]. apply length_entry_nonzero.
Qed.

(** A field of two entries, one finite and one [nan]. *)
Lemma vector_length_never_zero_witness :
  let V := NdArray (NdArr (1, 2) [Fin 0; NaN]) in
  wf_pyval V
  /\ vector_length (Np.ones_like V) V = Ok (Np.ufunc length_entry V).
Proof.
  intros V.
  assert (Hwf : wf_pyval V) by reflexivity.
  split; [exact Hwf|].
  exact (proj1 (vector_length_never_zero V Hwf)).
Defined.

(** *** Operators on a field and a grid of one shape *)

Lemma binary_value_at (o : arith) (a b v : pyval) (m n k : nat)
    (fa fb : float64) :
  (shape_of a = [] \/ shape_of a = [m; n]) ->
  (shape_of b = [] \/ shape_of b = [m; n]) ->
  k < m * n ->
  Py.binary o a b = Ok v ->
  value_at a k = Some fa -> value_at b k = Some fb ->
  value_at v k = Some (Py.float_op o fa fb).
Proof.
  intros Sa Sb Hk H Ha Hb.
  destruct a as [a|f|c], b as [b|g|d]; cbn [Py.binary] in H;
    cbn [value_at] in Ha, Hb.
  - destruct (Py.num_op o a b) as [t|] eqn:Eo; cbn [bind] in H; [|discriminate].
    injection H as <-. injection Ha as <-. injection Hb as <-.
    cbn [value_at]. f_equal. symmetry. now apply num_op_float_op.
  - injection H as <-. injection Ha as <-. now injection Hb as <-.
  - injection H as <-. injection Ha as <-.
    now apply (value_at_map (Py.float_op o (Fin a))).
  - injection H as <-. injection Ha as <-. now injection Hb as <-.
  - injection H as <-. injection Ha as <-. now injection Hb as <-.
  - injection H as <-. injection Ha as <-.
    now apply (value_at_map (Py.float_op o f)).
  - injection H as <-. injection Hb as <-.
    now apply (value_at_map (fun v => Py.float_op o v (Fin b))).
  - injection H as <-. injection Hb as <-.
    now apply (value_at_map (fun v => Py.float_op o v g)).
  - cbn [shape_of] in Sa, Sb.
    destruct Sa as [Sa|Sa]; [discriminate|].
    destruct Sb as [Sb|Sb]; [discriminate|].
    injection Sa as Ra Ca. injection Sb as Rb Cb.
    rewrite NpFacts.broadcast_same_shape in H.
    2:{ unfold nrows, ncols in *. destruct (shape c), (shape d).
        cbn in *. congruence. }
    cbn [bind] in H. injection H as <-. cbn [value_at flat].
    rewrite NpFacts.nth_error_map_seq by (rewrite Ra, Ca; exact Hk).
    now rewrite (nth_error_nth _ _ NaN Ha), (nth_error_nth _ _ NaN Hb).
Qed.

(** With an array among the operands, of the shape of the other if that is
    one too, the operator returns an array of that shape. *)
Lemma binary_array (o : arith) (a b : pyval) (m n : nat) :
  (shape_of a = [] \/ shape_of a = [m; n]) ->
  (shape_of b = [] \/ shape_of b = [m; n]) ->
  (shape_of a = [m; n] \/ shape_of b = [m; n]) ->
  exists v, Py.binary o a b = Ok v /\ shape_of v = [m; n].
Proof.
  intros Sa Sb Sab.
  destruct a as [a|f|c], b as [b|g|d]; cbn [shape_of] in *;
    try (exfalso; intuition discriminate);
    try (eexists; split; [reflexivity|];
         cbn [shape_of Np.map nrows ncols shape]; intuition congruence).
  destruct Sa as [Sa|Sa]; [discriminate|].
  destruct Sb as [Sb|Sb]; [discriminate|].
  injection Sa as Ra Ca. injection Sb as Rb Cb.
  cbn [Py.binary]. rewrite NpFacts.broadcast_same_shape.
  - eexists. split; [reflexivity|].
    cbn [shape_of]. unfold nrows, ncols in *. cbn [shape]. congruence.
  - unfold nrows, ncols in *. destruct (shape c), (shape d). cbn in *. congruence.
Qed.

Lemma segment_alpha_finite (ys ye : R) :
  exists a, segment_alpha (Fin ys) (Fin ye) = Fin a /\ (0.2 <= a <= 1)%R.
Proof.
  unfold segment_alpha, Float64.clip.
  cbn [Float64.sub Float64.neg Float64.add].
  rewrite Float64Facts.div_fin by lra.
  cbn [Float64.abs Float64.maximum Float64.minimum].
  eexists. split; [reflexivity|].
  split.
  - apply Rmin_glb; [apply Rmax_r|lra].
  - eapply Rle_trans; [apply Rmin_r|lra].
Qed.

Lemma normalized_entry_finite (v : R) :
  exists w, normalized_entry (Fin v) (length_entry (Fin v)) = Fin w.
Proof.
  destruct (length_entry_finite v) as [l [-> Hl]].
  unfold normalized_entry. cbn [Float64.mul].
  rewrite Float64Facts.div_fin by lra. eauto.
Qed.

(** *** [np.min] and [np.max] of finite entries *)

Lemma fold_minimum_finite (rs : list R) (r : R) :
  exists lo, fold_left Float64.minimum (map Fin rs) (Fin r) = Fin lo
             /\ is_least lo (r :: rs).
Proof.
  revert r. induction rs as [|s rs IH]; intros r; cbn [map fold_left].
  - exists r. split; [reflexivity|]. split; [now left|].
    intros e [<-|[]]. lra.
  - cbn [Float64.minimum]. destruct (IH (Rmin r s)) as [lo [-> [Hin Hle]]].
    exists lo. split; [reflexivity|]. split.
    + destruct Hin as [<-|Hin]; [|now right; right].
      unfold Rmin. destruct (Rle_dec r s); [now left|now right; left].
    + intros e [<-|[<-|He]].
      * apply Rle_trans with (Rmin r s); [apply Hle; now left|apply Rmin_l].
      * apply Rle_trans with (Rmin r s); [apply Hle; now left|apply Rmin_r].
      * apply Hle. now right.
Qed.

Lemma fold_maximum_finite (rs : list R) (r : R) :
  exists hi, fold_left Float64.maximum (map Fin rs) (Fin r) = Fin hi
             /\ is_greatest hi (r :: rs).
Proof.
  revert r. induction rs as [|s rs IH]; intros r; cbn [map fold_left].
  - exists r. split; [reflexivity|]. split; [now left|].
    intros e [<-|[]]. lra.
  - cbn [Float64.maximum]. destruct (IH (Rmax r s)) as [hi [-> [Hin Hle]]].
    exists hi. split; [reflexivity|]. split.
    + destruct Hin as [<-|Hin]; [|now right; right].
      unfold Rmax. destruct (Rle_dec r s); [now right; left|now left].
    + intros e [<-|[<-|He]].
      * apply Rle_trans with (Rmax r s); [apply Rmax_l|apply Hle; now left].
      * apply Rle_trans with (Rmax r s); [apply Rmax_r|apply Hle; now left].
      * apply Hle. now right.
Qed.

Lemma finite_entries_reals (l : list float64) :
  Forall Float64.isfinite l -> l = map Fin (finite_values l).
Proof.
  induction 1 as [|f l Hf _ IH]; [reflexivity|].
  destruct f; try contradiction. cbn [finite_values map]. now f_equal.
Qed.

Lemma value_at_array (a : ndarray) (m n k : nat) :
  shape a = (m, n) -> wf_array a -> k < m * n ->
  value_at (NdArray a) k = Some (nth k (flat a) NaN).
Proof.
  intros Hs Hwf Hk. cbn [value_at]. apply nth_error_nth'.
  unfold wf_array, nrows, ncols in Hwf. rewrite Hwf, Hs. exact Hk.
Qed.

Lemma shape_of_array (a : ndarray) (m n : nat) :
  shape a = (m, n) -> shape_of (NdArray a) = [m; n].
Proof. intros H. cbn. unfold nrows, ncols. now rewrite H. Qed.

(** The two ends of the segments in [y], for a grid coordinate array [Y]
    and a field [V] of one shape: they are computed, and at a point where
    both are finite so are the ends. *)
Lemma segment_ends_finite (Y V : ndarray) (m n : nat) :
  shape Y = (m, n) -> shape V = (m, n) -> wf_array Y -> wf_array V ->
  exists len V_norm Y_start Y_end,
    vector_length (Np.ones_like (NdArray V)) (NdArray V) = Ok len
    /\ normalized (NdArray V) len = Ok V_norm
    /\ segment_end Sub Y V_norm = Ok Y_start
    /\ segment_end Add Y V_norm = Ok Y_end
    /\ forall k yr vr, k < m * n ->
         nth k (flat Y) NaN = Fin yr -> nth k (flat V) NaN = Fin vr ->
         exists ys ye,
           value_at Y_start k = Some (Fin ys)
           /\ value_at Y_end k = Some (Fin ye).
Proof.
  intros SY SV WY WV.
  pose proof (shape_of_array Y m n SY) as SY'.
  pose proof (shape_of_array V m n SV) as SV'.
  exists (Np.ufunc length_entry (NdArray V)).
  set (len := Np.ufunc length_entry (NdArray V)).
  assert (Slen : shape_of len = [m; n]).
  { unfold len. cbn. unfold nrows, ncols. cbn. now rewrite SV. }
  set (t := NdArray (Np.map (Py.float_op Mul (Fin 0.25)) V)).
  assert (St : shape_of t = [m; n]).
  { unfold t. cbn. unfold nrows, ncols. cbn. now rewrite SV. }
  destruct (binary_array Div t len m n) as [VN [HVN SVN]]; auto.
  destruct (binary_array Div VN (PyNum 2) m n) as [h [Hh Sh]]; auto.
  destruct (binary_array Sub (NdArray Y) h m n) as [Ys [HYs _]]; auto.
  destruct (binary_array Add (NdArray Y) h m n) as [Ye [HYe _]]; auto.
  exists VN, Ys, Ye.
  split; [now apply vector_length_ufunc|].
  split; [unfold normalized; cbn [Py.binary bind]; exact HVN|].
  split; [unfold segment_end; rewrite Hh; exact HYs|].
  split; [unfold segment_end; rewrite Hh; exact HYe|].
  intros k yr vr Hk Hy Hv.
  pose proof (value_at_array Y m n k SY WY Hk) as VY. rewrite Hy in VY.
  pose proof (value_at_array V m n k SV WV Hk) as VV. rewrite Hv in VV.
  assert (Vlen : value_at len k = Some (length_entry (Fin vr)))
    by now apply value_at_map.
  assert (Vt : value_at t k = Some (Float64.mul (Fin 0.25) (Fin vr)))
    by now apply (value_at_map (Py.float_op Mul (Fin 0.25))).
  pose proof (binary_value_at Div t len VN m n k _ _
                (or_intror St) (or_intror Slen) Hk HVN Vt Vlen) as VVN.
  destruct (normalized_entry_finite vr) as [w Hw].
  unfold normalized_entry in Hw. cbn [Py.float_op] in VVN. rewrite Hw in VVN.
  pose proof (binary_value_at Div VN (PyNum 2) h m n k _ _
                (or_intror SVN) (or_introl eq_refl) Hk Hh VVN eq_refl) as Vh.
  cbn [Py.float_op] in Vh. rewrite Float64Facts.div_fin in Vh by lra.
  pose proof (binary_value_at Sub (NdArray Y) h Ys m n k _ _
                (or_intror SY') (or_intror Sh) Hk HYs VY Vh) as VYs.
  pose proof (binary_value_at Add (NdArray Y) h Ye m n k _ _
                (or_intror SY') (or_intror Sh) Hk HYe VY Vh) as VYe.
  cbn in VYs, VYe. eauto.
Qed.

(** C9, as stated, fails: of the field [[nan, 1]], which is not [nan]
    everywhere, [np.min] is [nan], and not the minimum 1 of its finite
    entries. *)
Lemma colour_bounds_of_finite_entries_fails :
  let V := NdArray (NdArr (1, 2) [NaN; Fin 1]) in
  Np.isnan_all V = false
  /\ ~ (forall lo, amin V = Ok lo ->
          exists mn, lo = Fin mn /\ is_least mn (finite_values (entries V))).
Proof.
  intros V. split; [reflexivity|].
  intros H. destruct (H NaN eq_refl) as [mn [Hmn _]]. discriminate Hmn.
Qed.

(** C9, amended. Without stream lines, at every grid point where the
    slope (and the grid coordinate) is finite, the opacity
    [clip(|ye - ys| / 0.25, 0.2, 1.0)] of the segment lies in [[0.2, 1.0]];
    and when every entry of [V] is finite, the bounds [vmin] and [vmax] of
    the colour scale are the least and the greatest entry of [V]. *)
Theorem opacity_and_colour_bounds (Y V : ndarray) (m n : nat) :
  shape Y = (m, n) -> shape V = (m, n) -> wf_array Y -> wf_array V ->
  (exists len V_norm Y_start Y_end,
     vector_length (Np.ones_like (NdArray V)) (NdArray V) = Ok len
     /\ normalized (NdArray V) len = Ok V_norm
     /\ segment_end Sub Y V_norm = Ok Y_start
     /\ segment_end Add Y V_norm = Ok Y_end
     /\ forall k yr vr, k < m * n ->
          nth k (flat Y) NaN = Fin yr -> nth k (flat V) NaN = Fin vr ->
          exists ys ye a,
            value_at Y_start k = Some ys /\ value_at Y_end k = Some ye
            /\ segment_alpha ys ye = Fin a /\ (0.2 <= a <= 1)%R)
  /\ (Forall Float64.isfinite (flat V) -> flat V <> [] ->
      exists lo hi,
        amin (NdArray V) = Ok (Fin lo) /\ amax (NdArray V) = Ok (Fin hi)
        /\ is_least lo (finite_values (flat V))
        /\ is_greatest hi (finite_values (flat V))).
Proof.
  intros SY SV WY WV. split.
  - destruct (segment_ends_finite Y V m n SY SV WY WV)
      as [len [VN [Ys [Ye [H1 [H2 [H3 [H4 H5]]]]]]]].
    exists len, VN, Ys, Ye. repeat (split; [assumption|]).
    intros k yr vr Hk Hy Hv.
    destruct (H5 k yr vr Hk Hy Hv) as [ys [ye [Hys Hye]]].
    destruct (segment_alpha_finite ys ye) as [a [Ha Hr]].
    exists (Fin ys), (Fin ye), a. auto.
  - intros Hfin Hne.
    apply finite_entries_reals in Hfin.
    cbn [amin amax]. unfold Np.min, Np.max, Np.reduce.
    destruct (finite_values (flat V)) as [|r rs] eqn:E.
    { rewrite Hfin in Hne. contradiction. }
    rewrite Hfin. cbn [map].
    destruct (fold_minimum_finite rs r) as [lo [-> Hlo]].
    destruct (fold_maximum_finite rs r) as [hi [-> Hhi]].
    exists lo, hi. auto.
Qed.

(** A field of two finite slopes on one row of the grid. *)
Lemma opacity_and_colour_bounds_witness :
  let Y := NdArr (1, 2) [Fin 0; Fin 0] in
  let V := NdArr (1, 2) [Fin 0; Fin 1] in
  shape Y = (1, 2) /\ shape V = (1, 2) /\ wf_array Y /\ wf_array V
  /\ Forall Float64.isfinite (flat V) /\ flat V <> []
  /\ exists lo hi,
       amin (NdArray V) = Ok (Fin lo) /\ amax (NdArray V) = Ok (Fin hi)
       /\ is_least lo (finite_values (flat V))
       /\ is_greatest hi (finite_values (flat V)).
Proof.
  intros Y V.
  assert (Hfin : Forall Float64.isfinite (flat V))
    by (repeat constructor).
  assert (Hne : flat V <> []) by discriminate.
  repeat (split; [reflexivity || assumption|]).
  exact (proj2 (opacity_and_colour_bounds Y V 1 2 eq_refl eq_refl eq_refl
                  eq_refl) Hfin Hne).
Defined.

(* ================================================================== *)
(** ** The polar grid *)

Lemma arange_head (start stop stp : R) :
  (0 < stp)%R -> (start < stop)%R ->
  exists tl, Np.arange start stop stp = Fin (start + INR 0 * stp) :: tl.
Proof.
  intros Hstep Hlt. unfold Np.arange.
  set (q := ((stop - start) / stp)%R).
  assert (Hq : (0 < q)%R) by (unfold q; apply Rdiv_lt_0_compat; lra).
  assert (Hz : (0 < Zceil q)%Z).
  { apply lt_IZR. destruct (Zceil_bound q) as [_ Hhi]. lra. }
  destruct (Z.to_nat (Zceil q)) as [|k] eqn:E; [lia|].
  cbn [seq map]. eauto.
Qed.

Lemma length_concat_repeat {A : Type} (xs : list A) (m : nat) :
  List.length (List.concat (repeat xs m)) = m * List.length xs.
Proof.
  induction m as [|m IH]; [reflexivity|].
  cbn [repeat List.concat]. rewrite length_app, IH. lia.
Qed.

Lemma length_flat_map_repeat {A : Type} (ys : list A) (n : nat) :
  List.length (flat_map (fun y => repeat y n) ys) = List.length ys * n.
Proof.
  induction ys as [|y ys IH]; [reflexivity|].
  cbn [flat_map]. rewrite length_app, repeat_length, IH. cbn. lia.
Qed.

Lemma combine_map_seq {A B : Type} (f : nat -> A) (g : nat -> B) (l : list nat) :
  combine (map f l) (map g l) = map (fun k => (f k, g k)) l.
Proof. induction l; cbn; congruence. Qed.

Lemma polar_grid_points (x_max y_max : R) :
  let r := Np.arange 0.01 x_max step in
  let theta := Np.arange 0 (2 * Np.pi) step in
  let rs := List.concat (repeat r (List.length theta)) in
  let ts := flat_map (fun t => repeat t (List.length r)) theta in
  exists X Y,
    build_grid "Polar" x_max y_max = Ok (X, Y)
    /\ grid_points (X, Y)
       = map (polar_point rs ts) (seq 0 (List.length theta * List.length r)).
Proof.
  intros r theta rs ts.
  unfold build_grid. cbn [String.eqb Ascii.eqb Bool.eqb andb].
  fold r theta. cbn [Np.meshgrid]. fold rs ts.
  rewrite !NpFacts.broadcast_same_shape by reflexivity.
  cbn [bind]. eexists. eexists. split; [reflexivity|].
  unfold grid_points. cbn [fst snd flat nrows ncols shape].
  unfold nrows, ncols. cbn [shape fst snd Np.map flat].
  rewrite combine_map_seq. apply map_ext. intros k.
  unfold polar_point. f_equal; f_equal.
  - exact (map_nth Float64.cos ts NaN k).
  - exact (map_nth Float64.sin ts NaN k).
Qed.

Lemma step_pos : (0 < step)%R.
Proof. unfold step. lra. Qed.

Lemma polar_radius (r t : R) :
  (0 <= r)%R ->
  sqrt ((r * cos t) * (r * cos t) + (r * sin t) * (r * sin t)) = r.
Proof.
  intros Hr.
  replace ((r * cos t) * (r * cos t) + (r * sin t) * (r * sin t))%R
    with ((r * r) * (Rsqr (sin t) + Rsqr (cos t)))%R by (unfold Rsqr; ring).
  rewrite sin2_cos2, Rmult_1_r. now apply sqrt_square.
Qed.




(* ================================================================== *)
(** ** The translator on calculator notation *)

Lemma stage_hom (old new : string) (f g : calc_token -> string) :
  (forall t r,
     (r = EmptyString \/ exists t' r', r = (f t' ++ r')%string) ->
     PyStr.replace_scan old new 0 (f t ++ r)
     = (g t ++ PyStr.replace_scan old new 0 r)%string) ->
  forall ts,
    PyStr.replace_scan old new 0 (join (map f ts)) = join (map g ts).
Proof.
  intros Hlocal ts. induction ts as [|t ts IH]; [reflexivity|].
  cbn [map join]. rewrite Hlocal, IH; [reflexivity|].
  destruct ts as [|t' ts]; [now left|right].
  cbn [map join]. eauto.
Qed.

Ltac stage_values :=
  repeat match goal with
         | |- context [stage ?j ?t] =>
             let v := eval vm_compute in (stage j t) in
             change (stage j t) with v
         end.

Ltac stage_local :=
  let t := fresh "t" in
  let r := fresh "r" in
  let Hr := fresh "Hr" in
  intros t r Hr;
  destruct t; stage_values; simpl;
  try reflexivity;
  (destruct Hr as [->|[t' [r' ->]]];
   [reflexivity|destruct t'; stage_values; simpl; reflexivity]).

Lemma stage_1 (ts : list calc_token) :
  PyStr.replace "^" "**" (join (map (stage 0) ts)) = join (map (stage 1) ts).
Proof. apply stage_hom. stage_local. Qed.

Lemma stage_2 (ts : list calc_token) :
  PyStr.replace "sin" "np.sin" (join (map (stage 1) ts))
  = join (map (stage 2) ts).
Proof. apply stage_hom. stage_local. Qed.

Lemma stage_3 (ts : list calc_token) :
  PyStr.replace "cos" "np.cos" (join (map (stage 2) ts))
  = join (map (stage 3) ts).
Proof. apply stage_hom. stage_local. Qed.

Lemma stage_4 (ts : list calc_token) :
  PyStr.replace "tan" "np.tan" (join (map (stage 3) ts))
  = join (map (stage 4) ts).
Proof. apply stage_hom. stage_local. Qed.

Lemma stage_5 (ts : list calc_token) :
  PyStr.replace "log" "np.log10" (join (map (stage 4) ts))
  = join (map (stage 5) ts).
Proof. apply stage_hom. stage_local. Qed.

Lemma stage_6 (ts : list calc_token) :
  PyStr.replace "ln" "np.log" (join (map (stage 5) ts))
  = join (map (stage 6) ts).
Proof. apply stage_hom. stage_local. Qed.

Lemma stage_7 (ts : list calc_token) :
  PyStr.replace "sqrt" "np.sqrt" (join (map (stage 6) ts))
  = join (map (stage 7) ts).
Proof. apply stage_hom. stage_local. Qed.

(** The translator works token by token on calculator notation. *)
Lemma ti84_to_numpy_tokens (ts : list calc_token) :
  ti84_to_numpy (raw_of ts) = join (map (stage 7) ts).
Proof.
  unfold ti84_to_numpy, raw_of.
  change token_text with (stage 0).
  now rewrite stage_1, stage_2, stage_3, stage_4, stage_5, stage_6, stage_7.
Qed.

(** *** No caret is left *)

Lemma in_chars_app (c : ascii) (s t : string) :
  In c (list_ascii_of_string (s ++ t)) ->
  In c (list_ascii_of_string s) \/ In c (list_ascii_of_string t).
Proof.
  induction s as [|a s IH]; cbn; [auto|].
  intros [H|H]; [auto|]. destruct (IH H); auto.
Qed.

Lemma in_chars_middle (c : ascii) (pre post : string) :
  In c (list_ascii_of_string (pre ++ String c post)).
Proof. induction pre as [|a pre IH]; cbn; auto. Qed.

Lemma stage_7_no_caret (ts : list calc_token) :
  ~ In "^"%char (list_ascii_of_string (join (map (stage 7) ts))).
Proof.
  induction ts as [|t ts IH]; cbn [map join]; [intros []|].
  intros H. apply in_chars_app in H as [H|H]; [|exact (IH H)].
  destruct t; vm_compute in H; intuition discriminate.
Qed.

(** *** Every function name left is namespaced *)

Lemma append_assoc (s t u : string) :
  ((s ++ t) ++ u)%string = (s ++ t ++ u)%string.
Proof. induction s; cbn; congruence. Qed.

Lemma guarded_namespaced (kw : string) :
  kw <> EmptyString ->
  forall pre before post,
    guarded kw before (pre ++ kw ++ post) ->
    exists p, (before ++ pre)%string = (p ++ "np.")%string.
Proof.
  intros Hne pre. induction pre as [|c pre IH]; intros before post H.
  - cbn [append] in H. destruct kw as [|a kw]; [contradiction|].
    cbn [append guarded] in H. destruct H as [H _].
    destruct H as [p ->].
    + apply (PyStrFacts.startswith_app (String a kw) post).
    + exists p. clear. induction p; cbn; congruence.
  - cbn [append guarded] in H. destruct H as [_ H].
    destruct (IH _ _ H) as [p Hp]. exists p.
    rewrite <- Hp, append_assoc. reflexivity.
Qed.

Ltac guard_follow Hs ts :=
  destruct ts as [|[] ?]; cbn [map join] in Hs;
  repeat match type of Hs with
         | context [stage ?j ?t] =>
             let v := eval vm_compute in (stage j t) in
             change (stage j t) with v in Hs
         end;
  simpl in Hs; discriminate Hs.

Ltac guard_case IH ts before :=
  stage_values; cbn [append guarded]; repeat split; try apply IH;
  let Hs := fresh "Hs" in
  simpl; intros Hs;
  first [ discriminate Hs
        | exists before; rewrite !append_assoc; reflexivity
        | guard_follow Hs ts ].

Lemma stage_7_guarded (kw : string) :
  In kw keywords ->
  forall ts before, guarded kw before (join (map (stage 7) ts)).
Proof.
  intros Hkw ts. induction ts as [|t ts IH]; intros before;
    cbn [map join]; [exact I|].
  unfold keywords in Hkw. cbn [In] in Hkw.
  destruct Hkw as [<-|[<-|[<-|[<-|[<-|[<-|[]]]]]]];
    destruct t; guard_case IH ts before.
Qed.

(** C5. For every raw expression spelled with the function names [sin],
    [cos], [tan], [log], [ln], [sqrt], the operator [^], the variables
    [x] and [y], digits, parentheses and arithmetic operators (the
    decimal point and the blank too), the translated string has no [^]
    left, and each occurrence in it of one of the six names comes right
    after the prefix ["np."]. *)
Theorem translated_calculator_notation_is_namespaced (ts : list calc_token) :
  ~ has_caret (ti84_to_numpy (raw_of ts))
  /\ Forall (fun kw => namespaced kw (ti84_to_numpy (raw_of ts))) keywords.
Proof.
  rewrite ti84_to_numpy_tokens. split.
  - intros [pre [post H]]. apply (stage_7_no_caret ts).
    rewrite H. cbn [append]. apply in_chars_middle.
  - apply Forall_forall. intros kw Hkw pre post H.
    pose proof (stage_7_guarded kw Hkw ts EmptyString) as G.
    rewrite H in G.
    apply guarded_namespaced in G; [exact G|].
    unfold keywords in Hkw. cbn [In] in Hkw.
    intuition (subst; discriminate).
Qed.

(** The translator on three spellings, by computation. *)
Example translate_log_of_ln :
  ti84_to_numpy (raw_of [K_log; K_lparen; K_ln; K_lparen; K_x; K_rparen;
                         K_rparen; K_pow; K_2])
  = "np.log10(np.log(x))**2"%string.
Proof. reflexivity. Qed.

(* ================================================================== *)
(** ** When the plotter fails, and when an exception leaves it *)

Ltac plot_body_step :=
  match goal with
  | |- context [match ?x with Ok _ => _ | Raise _ => _ end] =>
      destruct x; cbn beta iota zeta; try (eexists; eexists; reflexivity)
  | |- context [if ?b then _ else _] =>
      destruct b; cbn beta iota zeta; try (eexists; eexists; reflexivity)
  end.

Lemma generate_plot_body_raises (rt : Runtime) (ax ax' : Axes rt)
    (raw : string) (x_max y_max : R) (cmap_name : string) (streamplot : bool)
    (coord_system : string) (c : code rt) (e : exn) :
  py_compile rt (ti84_to_numpy raw) = Ok c ->
  plot_body rt (func rt c) raw x_max y_max cmap_name streamplot coord_system
    (clear ax) = (Raise e, ax') ->
  generate_plot rt ax raw x_max y_max cmap_name streamplot coord_system
  = (Ok tt, failure_payload ax').
Proof.
  intros Hc Hb. unfold generate_plot, safe_slope_func.
  rewrite Hc. cbn [bind]. now rewrite Hb.
Qed.

Lemma plot_body_unknown_cmap (rt : Runtime)
    (slope_func : ndarray -> ndarray -> result pyval) (raw : string)
    (x_max y_max : R) (cmap_name : string) (streamplot : bool)
    (coord_system : string) (ax : Axes rt) :
  colormaps rt cmap_name = None ->
  exists e ax',
    plot_body rt slope_func raw x_max y_max cmap_name streamplot coord_system ax
    = (Raise e, ax').
Proof.
  intros H. unfold plot_body, bindM, lift, call, ret, raise. rewrite H.
  cbn beta iota zeta.
  repeat plot_body_step.
Qed.

Lemma plot_body_empty_grid (rt : Runtime)
    (slope_func : ndarray -> ndarray -> result pyval) (raw : string)
    (x_max y_max : R) (cmap_name : string) (streamplot : bool)
    (coord_system : string) (ax : Axes rt) (g : ndarray * ndarray) :
  build_grid coord_system x_max y_max = Ok g ->
  flat (fst g) = [] ->
  exists e ax',
    plot_body rt slope_func raw x_max y_max cmap_name streamplot coord_system ax
    = (Raise e, ax').
Proof.
  intros Hg Hempty.
  assert (Hmin : Np.min (fst g)
                 = Raise (Exn ValueError "zero-size array to reduction operation"))
    by (unfold Np.min, Np.reduce; now rewrite Hempty).
  unfold plot_body, bindM, lift, call, ret, raise. rewrite Hg, Hmin.
  cbn beta iota zeta.
  repeat plot_body_step.
Qed.

(** Whatever goes wrong in the body of the [try], the call returns with
    the failure payload. *)
Lemma generate_plot_fails (rt : Runtime) (ax : Axes rt) (raw : string)
    (x_max y_max : R) (cmap_name : string) (streamplot : bool)
    (coord_system : string) (c : code rt) :
  py_compile rt (ti84_to_numpy raw) = Ok c ->
  (exists e ax',
     plot_body rt (func rt c) raw x_max y_max cmap_name streamplot
       coord_system (clear ax) = (Raise e, ax')) ->
  exists ax',
    generate_plot rt ax raw x_max y_max cmap_name streamplot coord_system
    = (Ok tt, ax')
    /\ is_failure_payload ax'.
Proof.
  intros Hc [e [ax' Hb]]. exists (failure_payload ax'). split.
  - now apply generate_plot_body_raises with (c := c) (e := e).
  - apply failure_payload_is_failure.
Qed.

(** *** Empty axes *)

Lemma arange_empty (start stop stp : R) :
  ((stop - start) / stp <= 0)%R -> Np.arange start stop stp = [].
Proof.
  intros Hq. unfold Np.arange.
  destruct (Zceil_bound ((stop - start) / stp)) as [Hlo _].
  assert (Hz : (Zceil ((stop - start) / stp) < 1)%Z) by (apply lt_IZR; lra).
  replace (Z.to_nat (Zceil ((stop - start) / stp))) with 0 by lia.
  reflexivity.
Qed.

Lemma linear_axis_empty (ext stp : R) :
  (0 < stp)%R -> (ext <= - 0.025)%R ->
  Np.arange (- ext) (ext + step) stp = [].
Proof.
  intros Hs He. apply arange_empty. unfold step.
  apply Rmult_le_reg_r with stp; [exact Hs|].
  unfold Rdiv. rewrite Rmult_assoc, Rinv_l by lra. lra.
Qed.

Lemma concat_repeat_nil {A : Type} (m : nat) :
  List.concat (repeat (@nil A) m) = [].
Proof. induction m; cbn; auto. Qed.

Lemma int_below_one (q : R) :
  (q < 1)%R -> (Py.int q <= 0)%Z.
Proof.
  intros Hq. unfold Py.int. destruct (Rlt_dec q 0) as [Hn|Hn].
  - destruct (Zceil_bound q) as [Hlo _].
    assert (Hz : (Zceil q < 1)%Z) by (apply lt_IZR; lra). lia.
  - destruct (Zfloor_bound q) as [Hlo _].
    assert (Hz : (Zfloor q < 1)%Z) by (apply lt_IZR; lra). lia.
Qed.

(** With less than one sample asked for, [np.logspace] raises or gives
    nothing. *)
Lemma logspace_below_one (a b : float64) (num : Z) :
  (num <= 0)%Z ->
  (exists e, Np.logspace a b num = Raise e) \/ Np.logspace a b num = Ok [].
Proof.
  intros Hn. unfold Np.logspace, Np.linspace.
  destruct (num <? 0)%Z eqn:E; cbn [bind]; [eauto|].
  apply Z.ltb_ge in E. replace num with 0%Z by lia. now right.
Qed.

Lemma sqrt3_pos : (0 < 0.2 * sqrt 3)%R.
Proof.
  assert (0 < sqrt 3)%R by (apply sqrt_lt_R0; lra). lra.
Qed.

(** Extents too small for one sample: the grid is not built, or it has
    no point. *)
Lemma build_grid_degenerate (coord_system : string) (x_max y_max : R) :
  (In coord_system ["Cartesian"; "Hexagonal"; "Complex Plane"]%string
   /\ (x_max <= - 0.025 \/ y_max <= - 0.025)%R)
  \/ (coord_system = "Polar"%string /\ (x_max <= 0.01)%R)
  \/ (coord_system = "Log-Polar"%string /\ (x_max < 0.05)%R)
  \/ (coord_system = "Log-Log"%string /\ (x_max < 0.05 \/ y_max < 0.05)%R) ->
  (exists e, build_grid coord_system x_max y_max = Raise e)
  \/ (exists g, build_grid coord_system x_max y_max = Ok g /\ flat (fst g) = []).
Proof.
  intros [[Hcs Hext]|[[-> Hext]|[[-> Hext]|[-> Hext]]]].
  - right. cbn [In] in Hcs.
    destruct Hcs as [<-|[<-|[<-|[]]]]; unfold build_grid;
      cbn [String.eqb Ascii.eqb Bool.eqb andb];
      (eexists; split; [reflexivity|]); cbn [Np.meshgrid fst flat];
      (destruct Hext as [Hx|Hy];
       [ rewrite (linear_axis_empty x_max)
           by first [exact step_pos | lra];
         apply concat_repeat_nil
       | rewrite (linear_axis_empty y_max)
           by first [exact step_pos | exact sqrt3_pos | lra];
         reflexivity ]).
  - right. unfold build_grid. cbn [String.eqb Ascii.eqb Bool.eqb andb].
    rewrite (arange_empty 0.01 x_max step).
    2:{ apply Rmult_le_reg_r with step; [exact step_pos|].
        unfold Rdiv. rewrite Rmult_assoc, Rinv_l by (unfold step; lra).
        unfold step. lra. }
    cbn [Np.meshgrid]. rewrite !NpFacts.broadcast_same_shape by reflexivity.
    cbn [bind]. eexists. split; [reflexivity|].
    cbn [fst flat nrows ncols shape]. unfold nrows, ncols. cbn [shape fst snd].
    cbn [List.length]. now rewrite Nat.mul_0_r.
  - unfold build_grid. cbn [String.eqb Ascii.eqb Bool.eqb andb].
    assert (Hn : (Py.int (x_max / step) <= 0)%Z).
    { apply int_below_one. unfold step.
      apply Rmult_lt_reg_r with 0.05%R; [lra|].
      unfold Rdiv. rewrite Rmult_assoc, Rinv_l by lra. lra. }
    destruct (logspace_below_one (Fin (-1)) (Float64.log10 (Fin x_max)) _ Hn)
      as [[e ->]| ->]; cbn [bind]; [eauto|].
    destruct (Np.linspace (Fin 0) (Fin (2 * Np.pi)) (Py.int (2 * Np.pi / step)))
      as [theta|e]; cbn [bind]; [|eauto].
    right. cbn [Np.meshgrid].
    rewrite !NpFacts.broadcast_same_shape by reflexivity.
    cbn [bind]. eexists. split; [reflexivity|].
    cbn [fst flat nrows ncols shape]. unfold nrows, ncols. cbn [shape fst snd].
    cbn [List.length]. now rewrite Nat.mul_0_r.
  - unfold build_grid. cbn [String.eqb Ascii.eqb Bool.eqb andb].
    assert (Hq : forall ext, (ext < 0.05)%R -> (Py.int (ext / step) <= 0)%Z).
    { intros ext He. apply int_below_one. unfold step.
      apply Rmult_lt_reg_r with 0.05%R; [lra|].
      unfold Rdiv. rewrite Rmult_assoc, Rinv_l by lra. lra. }
    destruct Hext as [Hx|Hy].
    + destruct (logspace_below_one (Fin (-1)) (Float64.log10 (Fin x_max)) _
                  (Hq _ Hx)) as [[e ->]| ->]; cbn [bind]; [eauto|].
      destruct (Np.logspace (Fin (-1)) (Float64.log10 (Fin y_max))
                  (Py.int (y_max / step))) as [ys|e]; cbn [bind]; [|eauto].
      right. eexists. split; [reflexivity|].
      cbn [Np.meshgrid fst flat]. apply concat_repeat_nil.
    + destruct (Np.logspace (Fin (-1)) (Float64.log10 (Fin x_max))
                  (Py.int (x_max / step))) as [xs|e]; cbn [bind]; [|eauto].
      destruct (logspace_below_one (Fin (-1)) (Float64.log10 (Fin y_max)) _
                  (Hq _ Hy)) as [[e ->]| ->]; cbn [bind]; [eauto|].
      right. eexists. split; [reflexivity|]. reflexivity.
Qed.

(** X2. A coordinate system other than the six the plotter knows makes
    the grid construction raise [ValueError], and the call ends with the
    failure payload on the cleared axes. *)
Theorem unsupported_system_gives_failure_payload (rt : Runtime) (ax : Axes rt)
    (raw : string) (x_max y_max : R) (cmap_name : string) (streamplot : bool)
    (coord_system : string) (c : code rt) :
  ~ In coord_system supported_systems ->
  py_compile rt (ti84_to_numpy raw) = Ok c ->
  build_grid coord_system x_max y_max
  = Raise (Exn ValueError "Unsupported coordinate system")
  /\ generate_plot rt ax raw x_max y_max cmap_name streamplot coord_system
     = (Ok tt, failure_payload (clear ax)).
Proof.
  intros Hcs Hc.
  assert (Hg : build_grid coord_system x_max y_max
               = Raise (Exn ValueError "Unsupported coordinate system")).
  { unfold build_grid, supported_systems in *. cbn [In] in Hcs.
    repeat match goal with
           | |- context [String.eqb coord_system ?s] =>
               destruct (String.eqb_spec coord_system s) as [->|_];
               [exfalso; apply Hcs; tauto|]
           end.
    reflexivity. }
  split; [exact Hg|].
  apply generate_plot_body_raises with (c := c)
    (e := Exn ValueError "Unsupported coordinate system"); [exact Hc|].
  unfold plot_body, bindM, lift. now rewrite Hg.
Qed.

Lemma unsupported_system_gives_failure_payload_witness :
  ~ In "Spherical"%string supported_systems
  /\ py_compile calc_runtime (ti84_to_numpy "x") = Ok Calc.VarX
  /\ generate_plot calc_runtime (new_axes calc_runtime) "x" 10 10 "viridis"
       false "Spherical"
     = (Ok tt, failure_payload (clear (new_axes calc_runtime))).
Proof.
  assert (Hcs : ~ In "Spherical"%string supported_systems).
  { unfold supported_systems. cbn [In]. intuition discriminate. }
  assert (Hc : py_compile calc_runtime (ti84_to_numpy "x") = Ok Calc.VarX)
    by reflexivity.
  split; [exact Hcs|]. split; [exact Hc|].
  exact (proj2 (unsupported_system_gives_failure_payload calc_runtime
                  (new_axes calc_runtime) "x" 10 10 "viridis" false
                  "Spherical" Calc.VarX Hcs Hc)).
Defined.

(** X3. With a palette name the colour map registry does not hold, an
    expression that compiles is never plotted: whatever the extents, the
    coordinate system and the drawing mode, the call ends with the failure
    payload, be it for the palette or for an exception (derived from
    [Exception]) raised before the palette is looked up. *)
Theorem unknown_palette_gives_failure_payload (rt : Runtime) (ax : Axes rt)
    (raw : string) (x_max y_max : R) (cmap_name : string) (streamplot : bool)
    (coord_system : string) (c : code rt) :
  colormaps rt cmap_name = None ->
  py_compile rt (ti84_to_numpy raw) = Ok c ->
  exists ax',
    generate_plot rt ax raw x_max y_max cmap_name streamplot coord_system
    = (Ok tt, ax')
    /\ is_failure_payload ax'.
Proof.
  intros Hcm Hc. apply generate_plot_fails with (c := c); [exact Hc|].
  now apply plot_body_unknown_cmap.
Qed.

Lemma unknown_palette_gives_failure_payload_witness :
  colormaps calc_runtime "no-such-palette" = None
  /\ py_compile calc_runtime (ti84_to_numpy "x") = Ok Calc.VarX
  /\ exists ax',
       generate_plot calc_runtime (new_axes calc_runtime) "x" 10 10
         "no-such-palette" false "Cartesian" = (Ok tt, ax')
       /\ is_failure_payload ax'.
Proof.
  assert (Hcm : colormaps calc_runtime "no-such-palette" = None) by reflexivity.
  assert (Hc : py_compile calc_runtime (ti84_to_numpy "x") = Ok Calc.VarX)
    by reflexivity.
  split; [exact Hcm|]. split; [exact Hc|].
  exact (unknown_palette_gives_failure_payload calc_runtime
           (new_axes calc_runtime) "x" 10 10 "no-such-palette" false
           "Cartesian" Calc.VarX Hcm Hc).
Defined.

(** X4. Extents too small for a single sample never give a plot: an
    extent of at most -0.025 on a linear grid (Cartesian, Hexagonal,
    Complex Plane), a radius bound of at most 0.01 on the polar grid, an
    extent below 0.05 on a logarithmic one.  The grid is then empty, or
    its construction raises, and the call ends with the failure
    payload. *)
Theorem degenerate_extent_gives_failure_payload (rt : Runtime) (ax : Axes rt)
    (raw : string) (x_max y_max : R) (cmap_name : string) (streamplot : bool)
    (coord_system : string) (c : code rt) :
  (In coord_system ["Cartesian"; "Hexagonal"; "Complex Plane"]%string
   /\ (x_max <= - 0.025 \/ y_max <= - 0.025)%R)
  \/ (coord_system = "Polar"%string /\ (x_max <= 0.01)%R)
  \/ (coord_system = "Log-Polar"%string /\ (x_max < 0.05)%R)
  \/ (coord_system = "Log-Log"%string /\ (x_max < 0.05 \/ y_max < 0.05)%R) ->
  py_compile rt (ti84_to_numpy raw) = Ok c ->
  exists ax',
    generate_plot rt ax raw x_max y_max cmap_name streamplot coord_system
    = (Ok tt, ax')
    /\ is_failure_payload ax'.
Proof.
  intros Hext Hc. apply generate_plot_fails with (c := c); [exact Hc|].
  destruct (build_grid_degenerate coord_system x_max y_max Hext)
    as [[e Hg]|[g [Hg Hempty]]].
  - exists e, (clear ax). unfold plot_body, bindM, lift. now rewrite Hg.
  - now apply plot_body_empty_grid with (g := g).
Qed.

Lemma degenerate_extent_gives_failure_payload_witness :
  ("Polar"%string = "Polar"%string /\ (0 <= 0.01)%R)
  /\ py_compile calc_runtime (ti84_to_numpy "x") = Ok Calc.VarX
  /\ exists ax',
       generate_plot calc_runtime (new_axes calc_runtime) "x" 0 0 "viridis"
         false "Polar" = (Ok tt, ax')
       /\ is_failure_payload ax'.
Proof.
  assert (He : "Polar"%string = "Polar"%string /\ (0 <= 0.01)%R)
    by (split; [reflexivity|lra]).
  assert (Hc : py_compile calc_runtime (ti84_to_numpy "x") = Ok Calc.VarX)
    by reflexivity.
  split; [exact He|]. split; [exact Hc|].
  exact (degenerate_extent_gives_failure_payload calc_runtime
           (new_axes calc_runtime) "x" 0 0 "viridis" false "Polar" Calc.VarX
           (or_intror (or_introl He)) Hc).
Defined.

(* ================================================================== *)
(** ** Every grid is a grid *)

Lemma meshgrid_wf (xs ys : list float64) :
  shape (fst (Np.meshgrid xs ys)) = shape (snd (Np.meshgrid xs ys))
  /\ wf_array (fst (Np.meshgrid xs ys))
  /\ wf_array (snd (Np.meshgrid xs ys)).
Proof.
  unfold Np.meshgrid, wf_array, nrows, ncols. cbn [fst snd shape flat].
  split; [reflexivity|]. split.
  - apply length_concat_repeat.
  - apply length_flat_map_repeat.
Qed.

Lemma meshgrid_ok_wf (xs ys : list float64) (X Y : ndarray) :
  Ok (Np.meshgrid xs ys) = Ok (X, Y) ->
  shape X = shape Y /\ wf_array X /\ wf_array Y.
Proof.
  intros H. assert (E : Np.meshgrid xs ys = (X, Y)) by congruence.
  pose proof (meshgrid_wf xs ys) as W. rewrite E in W. exact W.
Qed.

Lemma broadcast_wf (f : float64 -> float64 -> float64) (a b r : ndarray) :
  shape a = shape b -> Np.broadcast f a b = Ok r ->
  shape r = shape a /\ wf_array r.
Proof.
  intros Hs H. rewrite NpFacts.broadcast_same_shape in H by exact Hs.
  injection H as <-. unfold wf_array, nrows, ncols. cbn [shape flat].
  split; [reflexivity|]. now rewrite length_map, length_seq.
Qed.

Lemma polar_to_cartesian_wf (r theta : list float64) (X Y : ndarray) :
  (let (Rg, Tg) := Np.meshgrid r theta in
   (X <- Np.broadcast Float64.mul Rg (Np.map Float64.cos Tg) ;;
    Y <- Np.broadcast Float64.mul Rg (Np.map Float64.sin Tg) ;;
    Ok (X, Y))%py) = Ok (X, Y) ->
  shape X = shape Y /\ wf_array X /\ wf_array Y.
Proof.
  cbn [Np.meshgrid]. intros H.
  match type of H with
  | bind ?m _ = _ => destruct m as [X'|] eqn:EX; cbn [bind] in H; [|discriminate]
  end.
  match type of H with
  | bind ?m _ = _ => destruct m as [Y'|] eqn:EY; cbn [bind] in H; [|discriminate]
  end.
  injection H as <- <-.
  apply broadcast_wf in EX as [SX WX]; [|reflexivity].
  apply broadcast_wf in EY as [SY WY]; [|reflexivity].
  repeat split; congruence.
Qed.

(** The invariant of the grid builder. *)
Lemma build_grid_wf (coord_system : string) (x_max y_max : R)
    (X Y : ndarray) :
  build_grid coord_system x_max y_max = Ok (X, Y) ->
  shape X = shape Y /\ wf_array X /\ wf_array Y.
Proof.
  unfold build_grid. intros H.
  repeat match type of H with
         | (if ?b then _ else _) = _ => destruct b
         end;
    try discriminate H;
    try (now apply meshgrid_ok_wf in H);
    try (now apply polar_to_cartesian_wf in H).
  - destruct (Np.logspace _ _ _) as [r|]; cbn [bind] in H; [|discriminate].
    destruct (Np.linspace _ _ _) as [theta|]; cbn [bind] in H; [|discriminate].
    now apply polar_to_cartesian_wf in H.
  - destruct (Np.logspace _ _ (Py.int (x_max / step))) as [xs|];
      cbn [bind] in H; [|discriminate].
    destruct (Np.logspace _ _ (Py.int (y_max / step))) as [ys|];
      cbn [bind] in H; [|discriminate].
    now apply meshgrid_ok_wf in H.
Qed.

(** X5. Whatever the coordinate system and the extents, a grid that is
    built is a pair of arrays of one shape, each with a buffer of the size
    its shape announces; it has one sample point per entry. *)
Theorem built_grid_is_well_formed (coord_system : string) (x_max y_max : R)
    (X Y : ndarray) :
  build_grid coord_system x_max y_max = Ok (X, Y) ->
  shape X = shape Y /\ wf_array X /\ wf_array Y
  /\ List.length (grid_points (X, Y)) = nrows X * ncols X.
Proof.
  intros H. destruct (build_grid_wf _ _ _ _ _ H) as [S [WX WY]].
  repeat split; try assumption.
  unfold grid_points. cbn [fst snd]. rewrite length_combine.
  unfold wf_array, nrows, ncols in *. rewrite WX, WY, S.
  apply Nat.min_id.
Qed.

Lemma built_grid_is_well_formed_witness :
  exists X Y,
    build_grid "Hexagonal" 1 1 = Ok (X, Y)
    /\ shape X = shape Y /\ wf_array X /\ wf_array Y
    /\ List.length (grid_points (X, Y)) = nrows X * ncols X.
Proof.
  eexists. eexists.
  assert (H : build_grid "Hexagonal" 1 1
              = Ok (Np.meshgrid (Np.arange (- 1) (1 + step) 0.2)
                                (Np.arange (- 1) (1 + step) (0.2 * sqrt 3))))
    by reflexivity.
  split; [exact H|].
  exact (built_grid_is_well_formed "Hexagonal" 1 1 _ _ H).
Defined.

(* ================================================================== *)
(** ** The Cartesian grid *)

Lemma combine_app_same {A B : Type} (l1 l2 : list A) (m1 m2 : list B) :
  List.length l1 = List.length m1 ->
  combine (l1 ++ l2)%list (m1 ++ m2)%list
  = (combine l1 m1 ++ combine l2 m2)%list.
Proof.
  revert m1. induction l1 as [|a l1 IH]; intros [|b m1] H; try discriminate H.
  - reflexivity.
  - cbn. f_equal. apply IH. now injection H.
Qed.

Lemma in_combine_repeat {A B : Type} (xs : list A) (a : A) (b : B) :
  In (a, b) (combine xs (repeat b (List.length xs))) <-> In a xs.
Proof.
  induction xs as [|x xs IH]; cbn; [tauto|].
  split.
  - intros [H|H]; [injection H as ->; auto|right; now apply IH].
  - intros [->|H]; [auto|right; now apply IH].
Qed.

(** The points of a meshgrid are the pairs of a sample of each axis. *)
Lemma meshgrid_points (xs ys : list float64) (a b : float64) :
  In (a, b) (grid_points (Np.meshgrid xs ys)) <-> In a xs /\ In b ys.
Proof.
  unfold grid_points, Np.meshgrid. cbn [fst snd flat].
  induction ys as [|y ys IH]; cbn [List.length repeat List.concat flat_map].
  - cbn. tauto.
  - rewrite combine_app_same by (now rewrite repeat_length).
    rewrite in_app_iff, IH. cbn [In].
    split.
    + intros [H|[Ha Hb]]; [|tauto].
      pose proof (in_combine_r _ _ _ _ H) as Hr. apply repeat_spec in Hr.
      subst b. apply in_combine_repeat in H. tauto.
    + intros [Ha [<-|Hb]]; [left; now apply in_combine_repeat|tauto].
Qed.

(** The first point of a meshgrid pairs the first sample of each axis. *)
Lemma meshgrid_first (x0 y0 : float64) (xs ys : list float64) :
  exists rest,
    grid_points (Np.meshgrid (x0 :: xs) (y0 :: ys)) = (x0, y0) :: rest.
Proof.
  unfold grid_points, Np.meshgrid.
  cbn [fst snd flat List.length repeat List.concat flat_map app combine].
  eauto.
Qed.

(** X6. A Cartesian grid that is built is a rectangular lattice: with two
    of its sample points [(a, b)] and [(a', b')] it holds [(a, b')]; when
    the two extents are equal it is symmetric about the diagonal (with
    [(a, b)] it holds [(b, a)]); and for extents that are not negative it
    is not empty and its first sample point is the corner
    [(-x_max, -y_max)]. *)
Theorem cartesian_grid_is_a_lattice (x_max y_max : R) (X Y : ndarray) :
  build_grid "Cartesian" x_max y_max = Ok (X, Y) ->
  (forall a b a' b',
     In (a, b) (grid_points (X, Y)) -> In (a', b') (grid_points (X, Y)) ->
     In (a, b') (grid_points (X, Y)))
  /\ (x_max = y_max ->
      forall a b, In (a, b) (grid_points (X, Y)) -> In (b, a) (grid_points (X, Y)))
  /\ ((0 <= x_max)%R -> (0 <= y_max)%R ->
      exists rest,
        grid_points (X, Y) = (Fin (- x_max), Fin (- y_max)) :: rest).
Proof.
  intros H.
  set (xs := Np.arange (- x_max) (x_max + step) step).
  set (ys := Np.arange (- y_max) (y_max + step) step).
  assert (E : Np.meshgrid xs ys = (X, Y)).
  { unfold build_grid in H. cbn [String.eqb Ascii.eqb Bool.eqb andb] in H.
    fold xs ys in H. congruence. }
  rewrite <- E. split; [|split].
  - intros a b a' b' H1 H2.
    apply meshgrid_points in H1 as [Ha _].
    apply meshgrid_points in H2 as [_ Hb'].
    apply meshgrid_points. now split.
  - intros Heq a b H1. apply meshgrid_points in H1 as [Ha Hb].
    apply meshgrid_points. unfold xs, ys in *. rewrite Heq in *. now split.
  - intros Hx Hy.
    destruct (arange_head (- x_max) (x_max + step) step step_pos) as [xt Hxs];
      [unfold step; lra|].
    destruct (arange_head (- y_max) (y_max + step) step step_pos) as [yt Hys];
      [unfold step; lra|].
    unfold xs, ys. rewrite Hxs, Hys.
    destruct (meshgrid_first (Fin (- x_max + INR 0 * step))
                (Fin (- y_max + INR 0 * step)) xt yt) as [rest Hr].
    exists rest. rewrite Hr. cbn [INR].
    replace (- x_max + 0 * step)%R with (- x_max)%R by ring.
    replace (- y_max + 0 * step)%R with (- y_max)%R by ring.
    reflexivity.
Qed.

(** The window of the GUI's default extent. *)
Lemma cartesian_grid_is_a_lattice_witness :
  exists X Y rest,
    build_grid "Cartesian" 10 10 = Ok (X, Y)
    /\ grid_points (X, Y) = (Fin (- 10), Fin (- 10)) :: rest
    /\ forall a b, In (a, b) (grid_points (X, Y)) -> In (b, a) (grid_points (X, Y)).
Proof.
  assert (H : build_grid "Cartesian" 10 10
              = Ok (fst (Np.meshgrid (Np.arange (- 10) (10 + step) step)
                                     (Np.arange (- 10) (10 + step) step)),
                    snd (Np.meshgrid (Np.arange (- 10) (10 + step) step)
                                     (Np.arange (- 10) (10 + step) step))))
    by reflexivity.
  assert (H0 : (0 <= 10)%R) by lra.
  destruct (cartesian_grid_is_a_lattice 10 10 _ _ H) as [_ [Hsym Hfirst]].
  destruct (Hfirst H0 H0) as [rest Hr].
  eexists. eexists. exists rest.
  split; [exact H|]. split; [exact Hr|]. exact (Hsym eq_refl).
Defined.

(* ================================================================== *)
(** ** The segments *)

Lemma length_entry_value (v : R) :
  length_entry (Fin v) = Fin (sqrt (1 ^ 2 + v ^ 2)).
Proof.
  unfold length_entry. cbn [Float64.power_nat Float64.add].
  apply Float64Facts.sqrt_fin. nra.
Qed.

(** The arrays of source lines 75-80 for one direction [W] and one
    coordinate array [P], and their value at each point. *)
Lemma segment_end_values (o : arith) (P : ndarray) (W len : pyval) (m n : nat) :
  shape P = (m, n) -> wf_array P ->
  shape_of W = [m; n] -> shape_of len = [m; n] ->
  exists Wn E,
    normalized W len = Ok Wn
    /\ segment_end o P Wn = Ok E
    /\ shape_of E = [m; n]
    /\ forall k p w l,
         k < m * n ->
         nth k (flat P) NaN = Fin p ->
         value_at W k = Some (Fin w) -> value_at len k = Some (Fin l) ->
         l <> 0%R ->
         value_at E k = Some (Py.float_op o (Fin p) (Fin (0.25 * w / l / 2))).
Proof.
  intros SP WP SW Slen.
  pose proof (shape_of_array P m n SP) as SP'.
  destruct (binary_array Mul (PyNum 0.25) W m n) as [t [Ht St]]; auto.
  destruct (binary_array Div t len m n) as [Wn [HWn SWn]]; auto.
  destruct (binary_array Div Wn (PyNum 2) m n) as [h [Hh Sh]]; auto.
  destruct (binary_array o (NdArray P) h m n) as [E [HE SE]]; auto.
  exists Wn, E.
  split; [unfold normalized; rewrite Ht; exact HWn|].
  split; [unfold segment_end; rewrite Hh; exact HE|].
  split; [exact SE|].
  intros k p w l Hk Hp Hw Hl Hl0.
  pose proof (value_at_array P m n k SP WP Hk) as VP. rewrite Hp in VP.
  pose proof (binary_value_at Mul (PyNum 0.25) W t m n k _ _
                (or_introl eq_refl) (or_intror SW) Hk Ht eq_refl Hw) as Vt.
  pose proof (binary_value_at Div t len Wn m n k _ _
                (or_intror St) (or_intror Slen) Hk HWn Vt Hl) as VWn.
  cbn [Py.float_op Float64.mul] in VWn.
  rewrite Float64Facts.div_fin in VWn by exact Hl0.
  pose proof (binary_value_at Div Wn (PyNum 2) h m n k _ _
                (or_intror SWn) (or_introl eq_refl) Hk Hh VWn eq_refl) as Vh.
  cbn [Py.float_op] in Vh. rewrite Float64Facts.div_fin in Vh by lra.
  exact (binary_value_at o (NdArray P) h E m n k _ _
           (or_intror SP') (or_intror Sh) Hk HE VP Vh).
Qed.

Lemma value_at_ones_like (V : ndarray) (m n k : nat) :
  shape V = (m, n) -> k < m * n ->
  value_at (Np.ones_like (NdArray V)) k = Some (Fin 1).
Proof.
  intros SV Hk. cbn [Np.ones_like value_at Np.full_like flat].
  apply nth_error_repeat. unfold nrows, ncols. now rewrite SV.
Qed.

(** X7. For a grid and a field of one shape, the end points computed on
    source lines 73-80 give, at every point where the coordinates and the
    slope [v] are finite, a segment that runs from left to right through
    the grid point and follows the sign of the slope: [xs <= x <= xe],
    [ys <= y <= ye] when [v >= 0] and [ye <= y <= ys] when [v <= 0].  A
    slope of zero gives a horizontal segment at the height of the grid
    point, drawn with the least opacity 0.2 (line 101). *)
Theorem segment_direction (X Y V : ndarray) (m n : nat) :
  shape X = (m, n) -> shape Y = (m, n) -> shape V = (m, n) ->
  wf_array X -> wf_array Y -> wf_array V ->
  exists len U_norm V_norm X_start X_end Y_start Y_end,
    vector_length (Np.ones_like (NdArray V)) (NdArray V) = Ok len
    /\ normalized (Np.ones_like (NdArray V)) len = Ok U_norm
    /\ normalized (NdArray V) len = Ok V_norm
    /\ segment_end Sub X U_norm = Ok X_start
    /\ segment_end Add X U_norm = Ok X_end
    /\ segment_end Sub Y V_norm = Ok Y_start
    /\ segment_end Add Y V_norm = Ok Y_end
    /\ forall k x y v,
         k < m * n ->
         nth k (flat X) NaN = Fin x -> nth k (flat Y) NaN = Fin y ->
         nth k (flat V) NaN = Fin v ->
         exists xs xe ys ye,
           value_at X_start k = Some (Fin xs)
           /\ value_at X_end k = Some (Fin xe)
           /\ value_at Y_start k = Some (Fin ys)
           /\ value_at Y_end k = Some (Fin ye)
           /\ (xs <= x <= xe)%R
           /\ ((0 <= v)%R -> (ys <= y <= ye)%R)
           /\ ((v <= 0)%R -> (ye <= y <= ys)%R)
           /\ (v = 0%R ->
               ys = y /\ ye = y
               /\ segment_alpha (Fin ys) (Fin ye) = Fin 0.2).
Proof.
  intros SX SY SV WX WY WV.
  set (U := Np.ones_like (NdArray V)).
  set (len := Np.ufunc length_entry (NdArray V)).
  assert (SU : shape_of U = [m; n]).
  { unfold U. cbn. unfold nrows, ncols. cbn. now rewrite SV. }
  assert (SV' : shape_of (NdArray V) = [m; n]) by now apply shape_of_array.
  assert (Slen : shape_of len = [m; n]).
  { unfold len. cbn. unfold nrows, ncols. cbn. now rewrite SV. }
  destruct (segment_end_values Sub X U len m n SX WX SU Slen)
    as [Un [Xs [HUn [HXs [_ VXs]]]]].
  destruct (segment_end_values Add X U len m n SX WX SU Slen)
    as [Un' [Xe [HUn' [HXe [_ VXe]]]]].
  destruct (segment_end_values Sub Y (NdArray V) len m n SY WY SV' Slen)
    as [Vn [Ys [HVn [HYs [_ VYs]]]]].
  destruct (segment_end_values Add Y (NdArray V) len m n SY WY SV' Slen)
    as [Vn' [Ye [HVn' [HYe [_ VYe]]]]].
  assert (Un' = Un) by congruence. subst Un'.
  assert (Vn' = Vn) by congruence. subst Vn'.
  exists len, Un, Vn, Xs, Xe, Ys, Ye.
  split; [now apply vector_length_ufunc|].
  repeat (split; [assumption|]).
  intros k x y v Hk Hx Hy Hv.
  assert (HL : (1 <= sqrt (1 ^ 2 + v ^ 2))%R).
  { rewrite <- sqrt_1 at 1. apply sqrt_le_1_alt. nra. }
  pose proof (value_at_ones_like V m n k SV Hk) as VU. fold U in VU.
  pose proof (value_at_array V m n k SV WV Hk) as VV. rewrite Hv in VV.
  assert (Vlen : value_at len k = Some (Fin (sqrt (1 ^ 2 + v ^ 2)))).
  { unfold len. cbn [Np.ufunc].
    rewrite (value_at_map length_entry V k (Fin v) VV).
    now rewrite length_entry_value. }
  set (L := sqrt (1 ^ 2 + v ^ 2)) in *.
  assert (HL0 : L <> 0%R) by lra.
  specialize (VXs k x 1%R L Hk Hx VU Vlen HL0).
  specialize (VXe k x 1%R L Hk Hx VU Vlen HL0).
  specialize (VYs k y v L Hk Hy VV Vlen HL0).
  specialize (VYe k y v L Hk Hy VV Vlen HL0).
  cbn [Py.float_op Float64.sub Float64.add Float64.neg] in VXs, VXe, VYs, VYe.
  assert (HiL : (0 < / L)%R) by (apply Rinv_0_lt_compat; lra).
  do 4 eexists.
  split; [exact VXs|]. split; [exact VXe|].
  split; [exact VYs|]. split; [exact VYe|].
  unfold Rdiv. set (iL := (/ L)%R) in *.
  split; [lra|].
  split; [intros Hv0; nra|].
  split; [intros Hv0; nra|].
  intros ->. split; [ring|]. split; [ring|].
  unfold segment_alpha, Float64.clip.
  cbn [Float64.sub Float64.neg Float64.add].
  rewrite Float64Facts.div_fin by lra.
  cbn [Float64.abs Float64.maximum Float64.minimum]. f_equal.
  replace ((y + 0.25 * 0 * iL * / 2 + - (y + - (0.25 * 0 * iL * / 2))) / 0.25)%R
    with 0%R by (unfold Rdiv; ring).
  rewrite Rabs_R0, Rmax_right by lra.
  apply Rmin_left. lra.
Qed.

(** A row of two points; at the first the slope is zero. *)
Lemma segment_direction_witness :
  let X := NdArr (1, 2) [Fin 0; Fin 1] in
  let V := NdArr (1, 2) [Fin 0; Fin 1] in
  shape X = (1, 2) /\ wf_array X
  /\ exists len U_norm V_norm X_start X_end Y_start Y_end,
       vector_length (Np.ones_like (NdArray V)) (NdArray V) = Ok len
       /\ normalized (Np.ones_like (NdArray V)) len = Ok U_norm
       /\ normalized (NdArray V) len = Ok V_norm
       /\ segment_end Sub X U_norm = Ok X_start
       /\ segment_end Add X U_norm = Ok X_end
       /\ segment_end Sub X V_norm = Ok Y_start
       /\ segment_end Add X V_norm = Ok Y_end
       /\ value_at Y_start 0 = Some (Fin 0)
       /\ value_at Y_end 0 = Some (Fin 0).
Proof.
  intros X V.
  assert (S : shape X = (1, 2)) by reflexivity.
  assert (W : wf_array X) by reflexivity.
  split; [exact S|]. split; [exact W|].
  destruct (segment_direction X X V 1 2 S S S W W W)
    as [len [Un [Vn [Xs [Xe [Ys [Ye [H1 [H2 [H3 [H4 [H5 [H6 [H7 Hp]]]]]]]]]]]]]].
  assert (Hk : 0 < 1 * 2) by (cbn; lia).
  destruct (Hp 0 0%R 0%R 0%R Hk eq_refl eq_refl eq_refl)
    as [xs [xe [ys [ye [_ [_ [Vs [Ve [_ [_ [_ Hz]]]]]]]]]]].
  destruct (Hz eq_refl) as [Es [Ee _]].
  rewrite Es in Vs. rewrite Ee in Ve.
  exists len, Un, Vn, Xs, Xe, Ys, Ye. repeat (split; [assumption|]). assumption.
Defined.

(* ================================================================== *)
(** ** A field that is plotted *)

Lemma grid_value_shape (m n : nat) (v : pyval) :
  grid_value m n v -> shape_of v = [m; n].
Proof. intros [a [-> [S _]]]. now apply shape_of_array. Qed.

Lemma grid_value_map (f : float64 -> float64) (a : ndarray) (m n : nat) :
  shape a = (m, n) -> wf_array a -> grid_value m n (NdArray (Np.map f a)).
Proof.
  intros S W. exists (Np.map f a). split; [reflexivity|].
  unfold wf_array, nrows, ncols in *. cbn [Np.map shape flat].
  split; [exact S|]. now rewrite length_map.
Qed.

(** An operator with an array of the grid among its operands, the other
    one a scalar or an array of the grid too, gives an array of the
    grid. *)
Lemma binary_grid (o : arith) (a b : pyval) (m n : nat) :
  (shape_of a = [] \/ grid_value m n a) ->
  (shape_of b = [] \/ grid_value m n b) ->
  (grid_value m n a \/ grid_value m n b) ->
  exists r, Py.binary o a b = Ok r /\ grid_value m n r.
Proof.
  intros Ha Hb Hab.
  destruct a as [x|f|c], b as [y|g|d]; cbn [Py.binary];
    try (exfalso; destruct Hab as [[? [E _]]|[? [E _]]]; discriminate E).
  - destruct Hb as [Hb|[d' [E [S W]]]]; [discriminate Hb|]. injection E as <-.
    eexists. split; [reflexivity|]. now apply grid_value_map.
  - destruct Hb as [Hb|[d' [E [S W]]]]; [discriminate Hb|]. injection E as <-.
    eexists. split; [reflexivity|]. now apply grid_value_map.
  - destruct Ha as [Ha|[c' [E [S W]]]]; [discriminate Ha|]. injection E as <-.
    eexists. split; [reflexivity|].
    now apply (grid_value_map (fun v => Py.float_op o v (Fin y))).
  - destruct Ha as [Ha|[c' [E [S W]]]]; [discriminate Ha|]. injection E as <-.
    eexists. split; [reflexivity|].
    now apply (grid_value_map (fun v => Py.float_op o v g)).
  - destruct Ha as [Ha|[c' [E [S W]]]]; [discriminate Ha|]. injection E as <-.
    destruct Hb as [Hb|[d' [E [S' W']]]]; [discriminate Hb|]. injection E as <-.
    rewrite NpFacts.broadcast_same_shape by congruence. cbn [bind].
    eexists. split; [reflexivity|].
    eexists. split; [reflexivity|]. cbn [shape]. split; [exact S|].
    unfold wf_array, nrows, ncols. cbn [shape flat].
    now rewrite length_map, length_seq.
Qed.

Lemma grid_value_flatten (m n : nat) (v : pyval) :
  grid_value m n v ->
  exists l, Py.flatten v = Ok l /\ List.length l = m * n.
Proof.
  intros [a [-> [S W]]]. exists (flat a). split; [reflexivity|].
  unfold wf_array, nrows, ncols in W. now rewrite W, S.
Qed.

Lemma zip5_length (rt : Runtime) (n : nat) :
  forall (xs xe ys ye : list float64) (cs : list (rgba rt)),
    List.length xs = n -> List.length xe = n -> List.length ys = n ->
    List.length ye = n -> List.length cs = n ->
    List.length (zip5 rt xs xe ys ye cs) = n.
Proof.
  induction n as [|n IH]; intros xs xe ys ye cs H1 H2 H3 H4 H5.
  - now destruct xs.
  - destruct xs as [|a xs], xe as [|b xe], ys as [|c ys], ye as [|d ye],
      cs as [|e cs]; try discriminate.
    cbn [List.length zip5] in *. f_equal. apply IH; congruence.
Qed.

Lemma normalized_grid (W len : pyval) (m n : nat) :
  grid_value m n W -> grid_value m n len ->
  exists Wn, normalized W len = Ok Wn /\ grid_value m n Wn.
Proof.
  intros HW Hlen. unfold normalized.
  destruct (binary_grid Mul (PyNum 0.25) W m n) as [t [-> Ht]]; auto.
  cbn [bind]. apply binary_grid; auto.
Qed.

Lemma segment_end_grid (o : arith) (P : ndarray) (Wn : pyval) (m n : nat) :
  shape P = (m, n) -> wf_array P -> grid_value m n Wn ->
  exists E, segment_end o P Wn = Ok E /\ grid_value m n E.
Proof.
  intros SP WP HW. unfold segment_end.
  destruct (binary_grid Div Wn (PyNum 2) m n) as [h [-> Hh]]; auto.
  cbn [bind]. apply binary_grid; auto.
  right. exists P. auto.
Qed.

Lemma reduce_nonempty (f : float64 -> float64 -> float64) (a : ndarray)
    (m n : nat) :
  shape a = (m, n) -> wf_array a -> 0 < m * n ->
  exists v, Np.reduce f a = Ok v.
Proof.
  intros S W Hmn. unfold Np.reduce.
  unfold wf_array, nrows, ncols in W. rewrite S in W. cbn [fst snd] in W.
  destruct (flat a); [cbn in W; lia|eauto].
Qed.

Lemma fold_plot_lines (rt : Runtime)
    (zs : list (float64 * float64 * float64 * float64 * rgba rt)) (ax : Axes rt) :
  let ax' := fold_left (fun a s => plot rt (draw_segment rt s) a) zs ax in
  lines rt ax' = (lines rt ax ++ map (draw_segment rt) zs)%list
  /\ facecolor rt ax' = facecolor rt ax /\ title rt ax' = title rt ax
  /\ texts rt ax' = texts rt ax /\ streams rt ax' = streams rt ax
  /\ xlim rt ax' = xlim rt ax /\ ylim rt ax' = ylim rt ax.
Proof.
  revert ax. induction zs as [|z zs IH]; intros ax; cbn [fold_left map].
  - rewrite app_nil_r. repeat split.
  - destruct (IH (plot rt (draw_segment rt z) ax))
      as [H1 [H2 [H3 [H4 [H5 [H6 H7]]]]]].
    cbn zeta in *. rewrite H1, H2, H3, H4, H5, H6, H7.
    cbn [plot lines facecolor title texts streams xlim ylim].
    rewrite <- app_assoc. repeat split.
Qed.

Lemma alpha_in_range_true (r : R) :
  (0.2 <= r <= 1)%R -> alpha_in_range (Fin r) = true.
Proof.
  intros H. unfold alpha_in_range.
  destruct (Rle_dec 0 r); [|lra]. destruct (Rle_dec r 1); [reflexivity|lra].
Qed.

(** With every opacity accepted, the loop adds its lines one by one. *)
Lemma draw_segments_accepted (rt : Runtime)
    (zs : list (float64 * float64 * float64 * float64 * rgba rt)) (ax : Axes rt) :
  Forall (fun l => exists a, alpha rt l = Fin a /\ (0.2 <= a <= 1)%R)
         (map (draw_segment rt) zs) ->
  draw_segments rt zs ax
  = (Ok tt, fold_left (fun a s => plot rt (draw_segment rt s) a) zs ax).
Proof.
  revert ax. induction zs as [|z zs IH]; intros ax F; [reflexivity|].
  cbn [map] in F. inversion_clear F as [|? ? [a [Ha Hr]] F'].
  cbn [draw_segments fold_left]. unfold bindM, ax_plot.
  rewrite Ha, (alpha_in_range_true a Hr). unfold call. now apply IH.
Qed.

(** With an opacity that is refused, the loop raises. *)
Lemma draw_segments_refused (rt : Runtime)
    (zs : list (float64 * float64 * float64 * float64 * rgba rt)) (ax : Axes rt)
    (z : float64 * float64 * float64 * float64 * rgba rt) :
  In z zs -> alpha_in_range (alpha rt (draw_segment rt z)) = false ->
  exists e ax', draw_segments rt zs ax = (Raise e, ax').
Proof.
  revert ax. induction zs as [|z0 zs IH]; intros ax Hin Hz; [contradiction|].
  cbn [draw_segments]. unfold bindM, ax_plot.
  destruct (alpha_in_range (alpha rt (draw_segment rt z0))) eqn:E.
  - unfold call. destruct Hin as [->|Hin]; [congruence|]. now apply IH.
  - unfold raise. eauto.
Qed.

Lemma zip5_opacity (rt : Runtime) (xs xe ys ye : list float64)
    (cs : list (rgba rt)) :
  (forall k c d,
     nth_error ys k = Some c -> nth_error ye k = Some d ->
     exists a, segment_alpha c d = Fin a /\ (0.2 <= a <= 1)%R) ->
  Forall (fun l => exists a, alpha rt l = Fin a /\ (0.2 <= a <= 1)%R)
         (map (draw_segment rt) (zip5 rt xs xe ys ye cs)).
Proof.
  revert xe ys ye cs. induction xs as [|a xs IH]; intros xe ys ye cs H.
  - constructor.
  - destruct xe as [|b xe], ys as [|c ys], ye as [|d ye], cs as [|e cs];
      try constructor.
    + exact (H 0 c d eq_refl eq_refl).
    + apply IH. intros k c' d' Hc Hd. exact (H (S k) c' d' Hc Hd).
Qed.

Lemma finite_nth (l : list float64) (k : nat) :
  Forall Float64.isfinite l -> k < List.length l ->
  exists r, nth k l NaN = Fin r.
Proof.
  intros F Hk. rewrite Forall_forall in F.
  specialize (F _ (nth_In l NaN Hk)).
  destruct (nth k l NaN); try contradiction. eauto.
Qed.

(** The body of the [try] on a field that is an array of the grid, finite
    on a grid with finite ordinates, with a known palette and without
    stream lines. *)
Lemma plot_body_success (rt : Runtime)
    (slope_func : ndarray -> ndarray -> result pyval) (raw : string)
    (x_max y_max : R) (cmap_name coord_system : string) (ax : Axes rt)
    (X Y V : ndarray) (m n : nat) (cmap : Colormap rt) :
  build_grid coord_system x_max y_max = Ok (X, Y) ->
  shape X = (m, n) -> 0 < m * n ->
  slope_func X Y = Ok (NdArray V) -> shape V = (m, n) -> wf_array V ->
  Np.isnan_all (NdArray V) = false ->
  colormaps rt cmap_name = Some cmap ->
  Forall Float64.isfinite (flat Y) -> Forall Float64.isfinite (flat V) ->
  exists ax' x_lo x_hi y_lo y_hi v_lo v_hi,
    plot_body rt slope_func raw x_max y_max cmap_name false coord_system ax
    = (Ok tt, ax')
    /\ Np.min X = Ok x_lo /\ Np.max X = Ok x_hi
    /\ Np.min Y = Ok y_lo /\ Np.max Y = Ok y_hi
    /\ Np.min V = Ok v_lo /\ Np.max V = Ok v_hi
    /\ List.length (lines rt ax') = List.length (lines rt ax) + m * n
    /\ title rt ax' = Some ("Slope Field for dy/dx = " ++ raw)%string
    /\ facecolor rt ax' = Some "black"%string
    /\ xlim rt ax' = Some (x_lo, x_hi) /\ ylim rt ax' = Some (y_lo, y_hi)
    /\ texts rt ax' = texts rt ax
    /\ colorbar rt ax'
       = Some (MkColorbar rt cmap (MkNormalize v_lo v_hi true) "Slope dy/dx")
    /\ exists new,
         lines rt ax' = (lines rt ax ++ new)%list
         /\ Forall (fun l => exists a, alpha rt l = Fin a
                                       /\ (0.2 <= a <= 1)%R) new.
Proof.
  intros Hg SX Hmn HV SV WV Hnan Hcm FY FV.
  destruct (build_grid_wf _ _ _ _ _ Hg) as [SXY [WX WY]].
  assert (SY : shape Y = (m, n)) by congruence.
  assert (GV : grid_value m n (NdArray V)) by (exists V; auto).
  assert (GU : grid_value m n (Np.ones_like (NdArray V))).
  { eexists. split; [reflexivity|].
    unfold wf_array, nrows, ncols. cbn [Np.full_like shape flat].
    split; [exact SV|]. now rewrite repeat_length. }
  assert (Glen : grid_value m n (Np.ufunc length_entry (NdArray V)))
    by now apply grid_value_map.
  destruct (normalized_grid _ _ m n GU Glen) as [Un [HUn GUn]].
  destruct (normalized_grid _ _ m n GV Glen) as [Vn [HVn GVn]].
  destruct (segment_end_grid Sub X Un m n SX WX GUn) as [Xs [HXs GXs]].
  destruct (segment_end_grid Add X Un m n SX WX GUn) as [Xe [HXe GXe]].
  destruct (segment_end_grid Sub Y Vn m n SY WY GVn) as [Ys [HYs GYs]].
  destruct (segment_end_grid Add Y Vn m n SY WY GVn) as [Ye [HYe GYe]].
  destruct (reduce_nonempty Float64.minimum X m n SX WX Hmn) as [x_lo Hxlo].
  destruct (reduce_nonempty Float64.maximum X m n SX WX Hmn) as [x_hi Hxhi].
  destruct (reduce_nonempty Float64.minimum Y m n SY WY Hmn) as [y_lo Hylo].
  destruct (reduce_nonempty Float64.maximum Y m n SY WY Hmn) as [y_hi Hyhi].
  destruct (reduce_nonempty Float64.minimum V m n SV WV Hmn) as [v_lo Hvlo].
  destruct (reduce_nonempty Float64.maximum V m n SV WV Hmn) as [v_hi Hvhi].
  destruct (grid_value_flatten m n _ GV) as [vs [Hvs Lvs]].
  destruct (grid_value_flatten m n _ GXs) as [xs [Hxs Lxs]].
  destruct (grid_value_flatten m n _ GXe) as [xe [Hxe Lxe]].
  destruct (grid_value_flatten m n _ GYs) as [ys [Hys Lys]].
  destruct (grid_value_flatten m n _ GYe) as [ye [Hye Lye]].
  set (colors := map (cmap_call rt cmap (MkNormalize v_lo v_hi true)) vs).
  assert (Hop : Forall (fun l => exists a, alpha rt l = Fin a
                                           /\ (0.2 <= a <= 1)%R)
                       (map (draw_segment rt) (zip5 rt xs xe ys ye colors))).
  { apply zip5_opacity. intros k cy dy Hcy Hdy.
    assert (Hk : k < m * n).
    { rewrite <- Lys. apply nth_error_Some. now rewrite Hcy. }
    destruct (segment_ends_finite Y V m n SY SV WY WV)
      as [len' [Vn' [Ys' [Ye' [E1 [E2 [E3 [E4 Hval]]]]]]]].
    rewrite (vector_length_ufunc (NdArray V) WV) in E1. injection E1 as <-.
    assert (Vn' = Vn) by (cbn [Np.ufunc] in HVn; congruence). subst Vn'.
    assert (Ys' = Ys) by congruence. subst Ys'.
    assert (Ye' = Ye) by congruence. subst Ye'.
    destruct (finite_nth (flat Y) k FY) as [yr Hyr].
    { unfold wf_array, nrows, ncols in WY. now rewrite WY, SY. }
    destruct (finite_nth (flat V) k FV) as [vr Hvr].
    { unfold wf_array, nrows, ncols in WV. now rewrite WV, SV. }
    destruct (Hval k yr vr Hk Hyr Hvr) as [ysr [yer [Vs Ve]]].
    destruct GYs as [aYs [-> _]]. destruct GYe as [aYe [-> _]].
    cbn [Py.flatten] in Hys, Hye. injection Hys as <-. injection Hye as <-.
    cbn [value_at] in Vs, Ve.
    assert (cy = Fin ysr) by congruence. assert (dy = Fin yer) by congruence.
    subst cy dy. apply segment_alpha_finite. }
  eexists. exists x_lo, x_hi, y_lo, y_hi, v_lo, v_hi.
  split.
  { unfold plot_body, bindM, lift, call, ret, raise.
    rewrite Hg. cbn [fst snd]. rewrite HV, Hnan.
    rewrite (vector_length_ufunc (NdArray V) WV), HUn, HVn.
    rewrite HXs, HXe, HYs, HYe.
    unfold Np.min, Np.max. rewrite Hxlo, Hxhi, Hylo, Hyhi, Hcm.
    cbn [amin amax]. unfold Np.min, Np.max. rewrite Hvlo, Hvhi.
    rewrite Hvs, Hxs, Hxe, Hys, Hye. fold colors.
    rewrite (draw_segments_accepted rt _ _ Hop). reflexivity. }
  repeat (split; [assumption|]).
  match goal with
  | |- context [fold_left ?f ?zs ?a] =>
      destruct (fold_plot_lines rt zs a) as [H1 [H2 [H3 [H4 [H5 [H6 H7]]]]]]
  end.
  cbn zeta in *.
  cbn [set_colorbar lines title facecolor xlim ylim texts colorbar].
  rewrite H1, H2, H3, H4, H6, H7.
  cbn [set_colorbar set_title tick_params set_aspect set_ylim set_xlim
       set_facecolor lines title facecolor xlim ylim texts colorbar].
  rewrite length_app, length_map.
  rewrite (zip5_length rt (m * n))
    by (auto; unfold colors; now rewrite length_map).
  repeat (split; [reflexivity|]).
  eexists. split; [reflexivity|]. exact Hop.
Qed.

Lemma finite_not_all_nan (V : ndarray) (m n : nat) :
  shape V = (m, n) -> wf_array V -> 0 < m * n ->
  Forall Float64.isfinite (flat V) -> Np.isnan_all (NdArray V) = false.
Proof.
  intros S W Hmn F. cbn [Np.isnan_all].
  unfold wf_array, nrows, ncols in W. rewrite S in W. cbn [fst snd] in W.
  destruct (flat V) as [|v vs]; [cbn in W; lia|].
  inversion_clear F. destruct v; try contradiction. reflexivity.
Qed.

(** X8. Without stream lines, when the expression compiles, the grid has
    at least one point, the evaluator returns an array of the grid's shape,
    grid and field are finite everywhere and the palette is known, the
    call returns with a plot: one segment per grid point, each with an
    opacity in [[0.2, 1]], the title naming the raw expression, the limits
    set to the range of the grid, no diagnostic text, and a colour bar on
    the scale [np.min(V)], [np.max(V)]. *)
Theorem valid_field_is_plotted (rt : Runtime) (ax : Axes rt) (raw : string)
    (x_max y_max : R) (cmap_name coord_system : string) (c : code rt)
    (X Y V : ndarray) (m n : nat) (cmap : Colormap rt) :
  py_compile rt (ti84_to_numpy raw) = Ok c ->
  build_grid coord_system x_max y_max = Ok (X, Y) ->
  shape X = (m, n) -> 0 < m * n ->
  func rt c X Y = Ok (NdArray V) -> shape V = (m, n) -> wf_array V ->
  Forall Float64.isfinite (flat X) -> Forall Float64.isfinite (flat Y) ->
  Forall Float64.isfinite (flat V) ->
  colormaps rt cmap_name = Some cmap ->
  exists ax' x_lo x_hi y_lo y_hi v_lo v_hi,
    generate_plot rt ax raw x_max y_max cmap_name false coord_system
    = (Ok tt, ax')
    /\ Np.min X = Ok x_lo /\ Np.max X = Ok x_hi
    /\ Np.min Y = Ok y_lo /\ Np.max Y = Ok y_hi
    /\ Np.min V = Ok v_lo /\ Np.max V = Ok v_hi
    /\ List.length (lines rt ax') = m * n
    /\ Forall (fun l => exists a, alpha rt l = Fin a /\ (0.2 <= a <= 1)%R)
              (lines rt ax')
    /\ title rt ax' = Some ("Slope Field for dy/dx = " ++ raw)%string
    /\ xlim rt ax' = Some (x_lo, x_hi) /\ ylim rt ax' = Some (y_lo, y_hi)
    /\ texts rt ax' = []
    /\ colorbar rt ax'
       = Some (MkColorbar rt cmap (MkNormalize v_lo v_hi true) "Slope dy/dx").
Proof.
  intros Hc Hg SX Hmn HV SV WV FX FY FV Hcm.
  pose proof (finite_not_all_nan V m n SV WV Hmn FV) as Hnan.
  destruct (plot_body_success rt (func rt c) raw x_max y_max cmap_name
              coord_system (clear ax) X Y V m n cmap Hg SX Hmn HV SV WV Hnan Hcm
              FY FV)
    as [ax' [x_lo [x_hi [y_lo [y_hi [v_lo [v_hi
         [Hb [H1 [H2 [H3 [H4 [H5 [H6 [HL [HT [_ [HX [HY [Htx [Hcb Hop]]]]]]]]]]]]]]]]]]]]].
  destruct Hop as [new [Hnew Fnew]]. cbn [clear lines app] in Hnew.
  exists ax', x_lo, x_hi, y_lo, y_hi, v_lo, v_hi.
  split.
  { unfold generate_plot, safe_slope_func. rewrite Hc. cbn [bind].
    now rewrite Hb. }
  repeat split;
    first [assumption | exact HL | exact Htx | rewrite Hnew; exact Fnew].
Qed.

Lemma arange_single (stp : R) :
  (0 < stp)%R -> Np.arange (- 0) (0 + stp) stp = [Fin (- 0 + INR 0 * stp)].
Proof.
  intros Hs. unfold Np.arange.
  replace (Zceil ((0 + stp - - 0) / stp)) with 1%Z; [reflexivity|].
  symmetry. apply Zceil_eq.
  replace ((0 + stp - - 0) / stp)%R with 1%R by (field; lra). lra.
Qed.

(** The expression [x] on the one-point Cartesian grid of extent 0. *)
Lemma valid_field_is_plotted_witness :
  exists ax',
    generate_plot calc_runtime (new_axes calc_runtime) "x" 0 0 "viridis" false
      "Cartesian" = (Ok tt, ax')
    /\ List.length (lines calc_runtime ax') = 1 * 1
    /\ texts calc_runtime ax' = [].
Proof.
  set (a := Fin (- 0 + INR 0 * step)).
  set (X := NdArr (1, 1) [a]).
  assert (Hg : build_grid "Cartesian" 0 0 = Ok (X, X)).
  { unfold build_grid. cbn [String.eqb Ascii.eqb Bool.eqb andb].
    rewrite (arange_single step step_pos). reflexivity. }
  assert (Hc : py_compile calc_runtime (ti84_to_numpy "x") = Ok Calc.VarX)
    by reflexivity.
  assert (HV : func calc_runtime Calc.VarX X X = Ok (NdArray X)) by reflexivity.
  assert (Hcm : colormaps calc_runtime "viridis" = Some "viridis"%string)
    by reflexivity.
  assert (Hmn : 0 < 1 * 1) by (cbn; lia).
  assert (HF : Forall Float64.isfinite (flat X)) by (repeat constructor).
  destruct (valid_field_is_plotted calc_runtime (new_axes calc_runtime) "x"
              0 0 "viridis" "Cartesian" Calc.VarX X X X 1 1 "viridis"%string
              Hc Hg eq_refl Hmn HV eq_refl eq_refl HF HF HF Hcm)
    as [ax' [x_lo [x_hi [y_lo [y_hi [v_lo [v_hi
         [Hr [_ [_ [_ [_ [_ [_ [HL [_ [_ [_ [_ [Htx _]]]]]]]]]]]]]]]]]]]].
  exists ax'. auto.
Defined.

(* ================================================================== *)
(** ** A field with a [nan] entry *)

Lemma segment_alpha_nan (ye : float64) : segment_alpha NaN ye = NaN.
Proof. destruct ye; reflexivity. Qed.

(** Where the field is [nan], so is the lower end of the segment. *)
Lemma segment_start_nan (Y V : ndarray) (m n : nat) :
  shape Y = (m, n) -> shape V = (m, n) -> wf_array Y -> wf_array V ->
  exists len V_norm Y_start,
    vector_length (Np.ones_like (NdArray V)) (NdArray V) = Ok len
    /\ normalized (NdArray V) len = Ok V_norm
    /\ segment_end Sub Y V_norm = Ok Y_start
    /\ forall k, nth_error (flat V) k = Some NaN ->
         value_at Y_start k = Some NaN.
Proof.
  intros SY SV WY WV.
  pose proof (shape_of_array Y m n SY) as SY'.
  pose proof (shape_of_array V m n SV) as SV'.
  exists (Np.ufunc length_entry (NdArray V)).
  set (len := Np.ufunc length_entry (NdArray V)).
  assert (Slen : shape_of len = [m; n]).
  { unfold len. cbn. unfold nrows, ncols. cbn. now rewrite SV. }
  set (t := NdArray (Np.map (Py.float_op Mul (Fin 0.25)) V)).
  assert (St : shape_of t = [m; n]).
  { unfold t. cbn. unfold nrows, ncols. cbn. now rewrite SV. }
  destruct (binary_array Div t len m n) as [VN [HVN SVN]]; auto.
  destruct (binary_array Div VN (PyNum 2) m n) as [h [Hh Sh]]; auto.
  destruct (binary_array Sub (NdArray Y) h m n) as [Ys [HYs _]]; auto.
  exists VN, Ys.
  split; [now apply vector_length_ufunc|].
  split; [unfold normalized; cbn [Py.binary bind]; exact HVN|].
  split; [unfold segment_end; rewrite Hh; exact HYs|].
  intros k VV.
  assert (Hk : k < m * n).
  { unfold wf_array, nrows, ncols in WV. rewrite SV in WV. cbn [fst snd] in WV.
    rewrite <- WV. apply nth_error_Some. now rewrite VV. }
  pose proof (value_at_array Y m n k SY WY Hk) as VY.
  assert (Vlen : value_at len k = Some (length_entry NaN))
    by now apply value_at_map.
  assert (Vt : value_at t k = Some (Float64.mul (Fin 0.25) NaN))
    by now apply (value_at_map (Py.float_op Mul (Fin 0.25))).
  pose proof (binary_value_at Div t len VN m n k _ _
                (or_intror St) (or_intror Slen) Hk HVN Vt Vlen) as VVN.
  pose proof (binary_value_at Div VN (PyNum 2) h m n k _ _
                (or_intror SVN) (or_introl eq_refl) Hk Hh VVN eq_refl) as Vh.
  pose proof (binary_value_at Sub (NdArray Y) h Ys m n k _ _
                (or_intror SY') (or_intror Sh) Hk HYs VY Vh) as VYs.
  rewrite VYs. f_equal. cbn. now destruct (nth k (flat Y) NaN).
Qed.

Lemma zip5_In (rt : Runtime) (ys : list float64) :
  forall (xs xe ye : list float64) (cs : list (rgba rt)) (k : nat)
         (c d : float64),
    List.length xs = List.length ys -> List.length xe = List.length ys ->
    List.length ye = List.length ys -> List.length cs = List.length ys ->
    nth_error ys k = Some c -> nth_error ye k = Some d ->
    exists a b e, In (a, b, c, d, e) (zip5 rt xs xe ys ye cs).
Proof.
  induction ys as [|y ys IH]; intros xs xe ye cs k c d L1 L2 L3 L4 Hc Hd.
  - destruct k; discriminate Hc.
  - destruct xs as [|a xs], xe as [|b xe], ye as [|d0 ye], cs as [|e cs];
      try discriminate.
    cbn [List.length] in *. cbn [zip5].
    destruct k as [|k]; cbn [nth_error] in Hc, Hd.
    + injection Hc as <-. injection Hd as <-. exists a, b, e. now left.
    + destruct (IH xs xe ye cs k c d) as [a' [b' [e' Hin]]];
        try congruence.
      exists a', b', e'. now right.
Qed.

(** The body of the [try], without stream lines, on a field that is an
    array of the grid with a [nan] entry: it raises, at the latest when
    the segment of that entry is to be drawn. *)
Lemma plot_body_nan_entry (rt : Runtime)
    (slope_func : ndarray -> ndarray -> result pyval) (raw : string)
    (x_max y_max : R) (cmap_name coord_system : string) (ax : Axes rt)
    (X Y V : ndarray) (m n k : nat) :
  build_grid coord_system x_max y_max = Ok (X, Y) ->
  shape X = (m, n) ->
  slope_func X Y = Ok (NdArray V) -> shape V = (m, n) -> wf_array V ->
  nth_error (flat V) k = Some NaN ->
  exists e ax',
    plot_body rt slope_func raw x_max y_max cmap_name false coord_system ax
    = (Raise e, ax').
Proof.
  intros Hg SX HV SV WV Hk.
  destruct (build_grid_wf _ _ _ _ _ Hg) as [SXY [WX WY]].
  assert (SY : shape Y = (m, n)) by congruence.
  assert (Hkmn : k < m * n).
  { unfold wf_array, nrows, ncols in WV. rewrite SV in WV. cbn [fst snd] in WV.
    rewrite <- WV. apply nth_error_Some. now rewrite Hk. }
  assert (Hmn : 0 < m * n) by lia.
  assert (GV : grid_value m n (NdArray V)) by (exists V; auto).
  assert (GU : grid_value m n (Np.ones_like (NdArray V))).
  { eexists. split; [reflexivity|].
    unfold wf_array, nrows, ncols. cbn [Np.full_like shape flat].
    split; [exact SV|]. now rewrite repeat_length. }
  assert (Glen : grid_value m n (Np.ufunc length_entry (NdArray V)))
    by now apply grid_value_map.
  destruct (normalized_grid _ _ m n GU Glen) as [Un [HUn GUn]].
  destruct (normalized_grid _ _ m n GV Glen) as [Vn [HVn GVn]].
  destruct (segment_end_grid Sub X Un m n SX WX GUn) as [Xs [HXs GXs]].
  destruct (segment_end_grid Add X Un m n SX WX GUn) as [Xe [HXe GXe]].
  destruct (segment_end_grid Sub Y Vn m n SY WY GVn) as [Ys [HYs GYs]].
  destruct (segment_end_grid Add Y Vn m n SY WY GVn) as [Ye [HYe GYe]].
  destruct (reduce_nonempty Float64.minimum X m n SX WX Hmn) as [x_lo Hxlo].
  destruct (reduce_nonempty Float64.maximum X m n SX WX Hmn) as [x_hi Hxhi].
  destruct (reduce_nonempty Float64.minimum Y m n SY WY Hmn) as [y_lo Hylo].
  destruct (reduce_nonempty Float64.maximum Y m n SY WY Hmn) as [y_hi Hyhi].
  destruct (reduce_nonempty Float64.minimum V m n SV WV Hmn) as [v_lo Hvlo].
  destruct (reduce_nonempty Float64.maximum V m n SV WV Hmn) as [v_hi Hvhi].
  destruct (grid_value_flatten m n _ GV) as [vs [Hvs Lvs]].
  destruct (grid_value_flatten m n _ GXs) as [xs [Hxs Lxs]].
  destruct (grid_value_flatten m n _ GXe) as [xe [Hxe Lxe]].
  destruct (grid_value_flatten m n _ GYs) as [ys [Hys Lys]].
  destruct (grid_value_flatten m n _ GYe) as [ye [Hye Lye]].
  unfold plot_body, bindM, lift, call, ret, raise.
  rewrite Hg. cbn [fst snd]. rewrite HV.
  destruct (Np.isnan_all (NdArray V)); [eauto|].
  rewrite (vector_length_ufunc (NdArray V) WV), HUn, HVn.
  rewrite HXs, HXe, HYs, HYe.
  unfold Np.min, Np.max. rewrite Hxlo, Hxhi, Hylo, Hyhi.
  destruct (colormaps rt cmap_name) as [cmap|]; [|eauto].
  cbn [amin amax]. unfold Np.min, Np.max. rewrite Hvlo, Hvhi.
  rewrite Hvs, Hxs, Hxe, Hys, Hye.
  set (colors := map (cmap_call rt cmap (MkNormalize v_lo v_hi true)) vs).
  (* the segment of the entry [k] *)
  destruct (segment_start_nan Y V m n SY SV WY WV)
    as [len' [Vn' [Ys' [E1 [E2 [E3 Hval]]]]]].
  rewrite (vector_length_ufunc (NdArray V) WV) in E1. injection E1 as <-.
  assert (Vn' = Vn) by (cbn [Np.ufunc] in HVn; congruence). subst Vn'.
  assert (Ys' = Ys) by congruence. subst Ys'.
  specialize (Hval k Hk).
  destruct GYs as [aYs [-> _]]. destruct GYe as [aYe [-> _]].
  cbn [Py.flatten] in Hys, Hye. injection Hys as <-. injection Hye as <-.
  cbn [value_at] in Hval.
  destruct (nth_error (flat aYe) k) as [d|] eqn:Hd.
  2:{ apply nth_error_None in Hd. lia. }
  destruct (zip5_In rt (flat aYs) xs xe (flat aYe) colors k NaN d)
    as [a [b [e Hin]]]; try congruence.
  { unfold colors. rewrite length_map. congruence. }
  match goal with
  | |- context [draw_segments rt ?zs ?a0] =>
      destruct (draw_segments_refused rt zs a0 (a, b, NaN, d, e) Hin)
        as [e0 [ax0 Hr]]
  end.
  { cbn [draw_segment alpha]. now rewrite segment_alpha_nan. }
  rewrite Hr. eauto.
Qed.

(** X14. Without stream lines, a field with a [nan] entry is never
    plotted, however many of its entries are finite: when the expression
    compiles and the evaluator returns an array of the grid's shape that
    holds a [nan], the call ends with the failure payload.  Either an
    earlier statement raises, or the segment of that entry gets the
    opacity [nan], which Matplotlib refuses with a [ValueError]. *)
Theorem field_with_nan_gives_failure_payload (rt : Runtime) (ax : Axes rt)
    (raw : string) (x_max y_max : R) (cmap_name coord_system : string)
    (c : code rt) (X Y V : ndarray) (m n k : nat) :
  py_compile rt (ti84_to_numpy raw) = Ok c ->
  build_grid coord_system x_max y_max = Ok (X, Y) ->
  shape X = (m, n) ->
  func rt c X Y = Ok (NdArray V) -> shape V = (m, n) -> wf_array V ->
  nth_error (flat V) k = Some NaN ->
  exists ax',
    generate_plot rt ax raw x_max y_max cmap_name false coord_system
    = (Ok tt, ax')
    /\ is_failure_payload ax'.
Proof.
  intros Hc Hg SX HV SV WV Hk.
  apply generate_plot_fails with (c := c); [exact Hc|].
  now apply plot_body_nan_entry with (X := X) (Y := Y) (V := V) (m := m)
                                     (n := n) (k := k).
Qed.

(** [sqrt(x)] on the Cartesian window of the GUI's default extent: the
    field is [nan] on the left half of the window. *)
Lemma field_with_nan_gives_failure_payload_witness :
  exists ax',
    generate_plot calc_runtime (new_axes calc_runtime) "sqrt(x)" 10 10
      "viridis" false "Cartesian" = (Ok tt, ax')
    /\ is_failure_payload ax'.
Proof.
  destruct (arange_head (- 10) (10 + step) step step_pos) as [xt Hxs];
    [unfold step; lra|].
  set (xs := Np.arange (- 10) (10 + step) step) in *.
  set (X := fst (Np.meshgrid xs xs)).
  set (Y := snd (Np.meshgrid xs xs)).
  set (V := Np.map Float64.sqrt X).
  assert (Hg : build_grid "Cartesian" 10 10 = Ok (X, Y)) by reflexivity.
  assert (Hc : py_compile calc_runtime (ti84_to_numpy "sqrt(x)")
               = Ok (Calc.Call Calc.np_sqrt Calc.VarX)) by reflexivity.
  assert (HV : func calc_runtime (Calc.Call Calc.np_sqrt Calc.VarX) X Y
               = Ok (NdArray V)) by reflexivity.
  assert (SX : shape X = (List.length xs, List.length xs)) by reflexivity.
  assert (SV : shape V = (List.length xs, List.length xs)) by reflexivity.
  assert (WV : wf_array V).
  { destruct (meshgrid_wf xs xs) as [_ [W _]].
    unfold wf_array, nrows, ncols in *. unfold V.
    cbn [Np.map shape flat]. now rewrite length_map. }
  assert (Hk : nth_error (flat V) 0 = Some NaN).
  { unfold V, X, Np.meshgrid. cbn [fst Np.map flat]. rewrite Hxs.
    cbn [List.length repeat List.concat app map nth_error INR].
    f_equal. unfold Float64.sqrt.
    destruct (Rlt_dec (- 10 + 0 * step) 0) as [_|H]; [reflexivity|].
    exfalso. apply H. unfold step. lra. }
  exact (field_with_nan_gives_failure_payload calc_runtime
           (new_axes calc_runtime) "sqrt(x)" 10 10 "viridis" "Cartesian"
           (Calc.Call Calc.np_sqrt Calc.VarX) X Y V (List.length xs)
           (List.length xs) 0 Hc Hg SX HV SV WV Hk).
Defined.

(* ================================================================== *)
(** ** More on the evaluator and the translator *)

(** X9. On two arrays of one shape, the evaluator of a calculator
    expression in which [x] or [y] occurs always returns an array of that
    shape: the value of the expression, or the [nan] array when the
    evaluation raises. *)
Theorem evaluator_keeps_grid_shape (e : Calc.expr) (x y : ndarray) (m n : nat) :
  shape x = (m, n) -> shape y = (m, n) ->
  mentions_variable e = true ->
  exists v, func calc_runtime e x y = Ok v /\ shape_of v = [m; n].
Proof.
  intros Sx Sy Hm. unfold func. cbn [py_eval calc_runtime].
  destruct (Calc.eval e x y) as [v|err] eqn:E; cbn [try_except].
  - exists v. split; [reflexivity|].
    now apply (eval_shape e x y m n v Sx Sy E).
  - eexists. split; [reflexivity|].
    cbn [shape_of]. unfold nrows, ncols. cbn [Np.full_like shape].
    now rewrite Sx.
Qed.

Lemma evaluator_keeps_grid_shape_witness :
  let x := NdArr (1, 2) [Fin 0; Fin 1] in
  let e := Calc.BinOp Add (Calc.Power Calc.VarX 2) (Calc.Call Calc.np_sin Calc.VarX) in
  py_compile calc_runtime (ti84_to_numpy "x^2 + sin(x)") = Ok e
  /\ mentions_variable e = true
  /\ exists v, func calc_runtime e x x = Ok v /\ shape_of v = [1; 2].
Proof.
  intros x e.
  assert (Hm : mentions_variable e = true) by reflexivity.
  split; [reflexivity|]. split; [exact Hm|].
  exact (evaluator_keeps_grid_shape e x x 1 2 eq_refl eq_refl Hm).
Defined.

(** X10. On calculator notation the translator works token by token:
    the translation of a raw expression is the concatenation of the
    translations of its tokens ([^] to [**], [log] to [np.log10], [ln] to
    [np.log], the other names prefixed by [np.], the rest unchanged), so
    that translating commutes with concatenation. *)
Theorem translation_is_token_by_token (ts us : list calc_token) :
  ti84_to_numpy (raw_of ts) = join (map numpy_text ts)
  /\ ti84_to_numpy (raw_of (ts ++ us)%list)
     = (ti84_to_numpy (raw_of ts) ++ ti84_to_numpy (raw_of us))%string.
Proof.
  assert (H : forall l, ti84_to_numpy (raw_of l) = join (map numpy_text l)).
  { intros l. rewrite ti84_to_numpy_tokens. f_equal.
    apply map_ext. intros t. destruct t; reflexivity. }
  split; [apply H|].
  rewrite !H, map_app.
  induction (map numpy_text ts) as [|s l IH]; cbn [join app]; [reflexivity|].
  now rewrite IH, append_assoc.
Qed.

Lemma replace_absent (old new s : string) :
  PyStr.contains old s = false -> PyStr.replace old new s = s.
Proof.
  intros H. destruct old as [|a old].
  - destruct s; discriminate H.
  - unfold PyStr.replace. induction s as [|c s IH]; [reflexivity|].
    cbn [PyStr.contains] in H. apply orb_false_iff in H as [Hs Hc].
    rewrite (PyStrFacts.replace_scan_miss _ _ _ _ Hs). now rewrite IH.
Qed.

(** X11. A string in which none of the seven notations occurs ([^],
    [sin], [cos], [tan], [log], [ln], [sqrt]) is returned as it is. *)
Theorem translation_without_notation (s : string) :
  Forall (fun rule => PyStr.contains (fst rule) s = false) substitutions ->
  ti84_to_numpy s = s.
Proof.
  intros H. unfold substitutions in H.
  repeat match goal with
         | H : Forall _ (_ :: _) |- _ => inversion_clear H
         end.
  cbn [fst] in *. unfold ti84_to_numpy.
  repeat (rewrite (replace_absent _ _ s) by assumption).
  reflexivity.
Qed.

Lemma translation_without_notation_witness :
  Forall (fun rule => PyStr.contains (fst rule) "(x*y - 2)/y" = false)
         substitutions
  /\ ti84_to_numpy "(x*y - 2)/y" = "(x*y - 2)/y"%string.
Proof.
  assert (H : Forall (fun rule => PyStr.contains (fst rule) "(x*y - 2)/y" = false)
                     substitutions)
    by (repeat constructor).
  split; [exact H|].
  exact (translation_without_notation "(x*y - 2)/y" H).
Defined.

(** X12. An expression whose evaluation on the grid raises (a division
    of a number by zero, an unknown name) does not stop the call: the
    evaluator turns the exception into a [nan] field, and the call returns
    with the failure payload. *)
Theorem evaluation_error_gives_failure_payload (rt : Runtime) (ax : Axes rt)
    (raw : string) (x_max y_max : R) (cmap_name : string) (streamplot : bool)
    (coord_system : string) (c : code rt) (g : ndarray * ndarray) (e : exn) :
  py_compile rt (ti84_to_numpy raw) = Ok c ->
  build_grid coord_system x_max y_max = Ok g ->
  py_eval rt c (fst g) (snd g) = Raise e ->
  generate_plot rt ax raw x_max y_max cmap_name streamplot coord_system
  = (Ok tt, failure_payload (clear ax))
  /\ is_failure_payload (failure_payload (clear ax)).
Proof.
  intros Hc Hg He. split; [|apply failure_payload_is_failure].
  apply generate_plot_all_nan
    with (c := c) (g := g) (V := NdArray (Np.full_like (fst g) NaN)); auto.
  - unfold func. now rewrite He.
  - apply isnan_all_full_like.
Qed.

Lemma evaluation_error_gives_failure_payload_witness :
  let c := Calc.BinOp Add (Calc.BinOp Div (Calc.Num 1 0) (Calc.Num 0 0)) Calc.VarX in
  let g := Np.meshgrid (Np.arange (- 10) (10 + step) step)
                       (Np.arange (- 10) (10 + step) step) in
  py_compile calc_runtime (ti84_to_numpy "1/0 + x") = Ok c
  /\ build_grid "Cartesian" 10 10 = Ok g
  /\ py_eval calc_runtime c (fst g) (snd g)
     = Raise (Exn ZeroDivisionError "division by zero")
  /\ generate_plot calc_runtime (new_axes calc_runtime) "1/0 + x" 10 10
       "viridis" false "Cartesian"
     = (Ok tt, failure_payload (clear (new_axes calc_runtime))).
Proof.
  intros c g.
  assert (Hc : py_compile calc_runtime (ti84_to_numpy "1/0 + x") = Ok c)
    by reflexivity.
  assert (Hg : build_grid "Cartesian" 10 10 = Ok g) by reflexivity.
  assert (He : py_eval calc_runtime c (fst g) (snd g)
               = Raise (Exn ZeroDivisionError "division by zero")).
  { cbn [py_eval calc_runtime]. unfold c. cbn [Calc.eval].
    change (Calc.eval (Calc.BinOp Div (Calc.Num 1 0) (Calc.Num 0 0))
              (fst g) (snd g))
      with (bind (Ok (PyNum (Calc.literal 1 0)))
              (fun a => bind (Ok (PyNum (Calc.literal 0 0)))
                          (fun b => Py.binary Div a b))).
    pose proof (eval_one_over_zero (fst g) (snd g)) as H1.
    cbn [Calc.eval] in H1. now rewrite H1. }
  repeat (split; [assumption|]).
  exact (proj1 (evaluation_error_gives_failure_payload calc_runtime
                  (new_axes calc_runtime) "1/0 + x" 10 10 "viridis" false
                  "Cartesian" c g _ Hc Hg He)).
Defined.

(** X13. With stream lines asked for, on a field that is an array of the
    grid, not [nan] everywhere, and a known palette, the outcome is
    Matplotlib's: if [streamplot] accepts the grid and the field the call
    returns with that stream plot, no segment, and the colour bar; if it
    raises, the call returns with the failure payload. *)
Theorem stream_mode_follows_streamplot (rt : Runtime) (ax : Axes rt)
    (raw : string) (x_max y_max : R) (cmap_name coord_system : string)
    (c : code rt) (X Y V : ndarray) (m n : nat) (cmap : Colormap rt)
    (v_lo v_hi : float64) :
  py_compile rt (ti84_to_numpy raw) = Ok c ->
  build_grid coord_system x_max y_max = Ok (X, Y) ->
  shape X = (m, n) -> 0 < m * n ->
  func rt c X Y = Ok (NdArray V) -> shape V = (m, n) -> wf_array V ->
  Np.isnan_all (NdArray V) = false ->
  colormaps rt cmap_name = Some cmap ->
  Np.min V = Ok v_lo -> Np.max V = Ok v_hi ->
  exists ax',
    generate_plot rt ax raw x_max y_max cmap_name true coord_system
    = (Ok tt, ax')
    /\ match mpl_streamplot rt X Y (Np.ones_like (NdArray V)) (NdArray V)
               cmap_name (MkNormalize v_lo v_hi true) with
       | Ok s =>
           streams rt ax' = [s] /\ lines rt ax' = [] /\ texts rt ax' = []
           /\ colorbar rt ax'
              = Some (MkColorbar rt cmap (MkNormalize v_lo v_hi true)
                        "Slope dy/dx")
       | Raise _ => is_failure_payload ax'
       end.
Proof.
  intros Hc Hg SX Hmn HV SV WV Hnan Hcm Hvlo Hvhi.
  destruct (build_grid_wf _ _ _ _ _ Hg) as [SXY [WX WY]].
  assert (SY : shape Y = (m, n)) by congruence.
  assert (GV : grid_value m n (NdArray V)) by (exists V; auto).
  assert (GU : grid_value m n (Np.ones_like (NdArray V))).
  { eexists. split; [reflexivity|].
    unfold wf_array, nrows, ncols. cbn [Np.full_like shape flat].
    split; [exact SV|]. now rewrite repeat_length. }
  assert (Glen : grid_value m n (Np.ufunc length_entry (NdArray V)))
    by now apply grid_value_map.
  destruct (normalized_grid _ _ m n GU Glen) as [Un [HUn GUn]].
  destruct (normalized_grid _ _ m n GV Glen) as [Vn [HVn GVn]].
  destruct (segment_end_grid Sub X Un m n SX WX GUn) as [Xs [HXs GXs]].
  destruct (segment_end_grid Add X Un m n SX WX GUn) as [Xe [HXe GXe]].
  destruct (segment_end_grid Sub Y Vn m n SY WY GVn) as [Ys [HYs GYs]].
  destruct (segment_end_grid Add Y Vn m n SY WY GVn) as [Ye [HYe GYe]].
  destruct (reduce_nonempty Float64.minimum X m n SX WX Hmn) as [x_lo Hxlo].
  destruct (reduce_nonempty Float64.maximum X m n SX WX Hmn) as [x_hi Hxhi].
  destruct (reduce_nonempty Float64.minimum Y m n SY WY Hmn) as [y_lo Hylo].
  destruct (reduce_nonempty Float64.maximum Y m n SY WY Hmn) as [y_hi Hyhi].
  unfold Np.min, Np.max in Hvlo, Hvhi.
  unfold generate_plot, safe_slope_func. rewrite Hc. cbn [bind].
  unfold plot_body, bindM, lift, call, ret, raise.
  rewrite Hg. cbn [fst snd]. rewrite HV, Hnan.
  rewrite (vector_length_ufunc (NdArray V) WV), HUn, HVn.
  rewrite HXs, HXe, HYs, HYe.
  unfold Np.min, Np.max. rewrite Hxlo, Hxhi, Hylo, Hyhi, Hcm.
  cbn [amin amax]. unfold Np.min, Np.max. rewrite Hvlo, Hvhi.
  destruct (mpl_streamplot rt X Y (Np.ones_like (NdArray V)) (NdArray V)
              cmap_name (MkNormalize v_lo v_hi true)) as [s|e].
  - eexists. split; [reflexivity|]. repeat split.
  - eexists. split; [reflexivity|]. apply failure_payload_is_failure.
Qed.

(** The expression [x] on the one-point Cartesian grid, with the stand-in
    surface, which accepts every stream plot. *)
Lemma stream_mode_follows_streamplot_witness :
  exists ax',
    generate_plot calc_runtime (new_axes calc_runtime) "x" 0 0 "viridis" true
      "Cartesian" = (Ok tt, ax')
    /\ streams calc_runtime ax' = [tt] /\ lines calc_runtime ax' = [].
Proof.
  set (a := Fin (- 0 + INR 0 * step)).
  set (X := NdArr (1, 1) [a]).
  assert (Hg : build_grid "Cartesian" 0 0 = Ok (X, X)).
  { unfold build_grid. cbn [String.eqb Ascii.eqb Bool.eqb andb].
    rewrite (arange_single step step_pos). reflexivity. }
  assert (Hc : py_compile calc_runtime (ti84_to_numpy "x") = Ok Calc.VarX)
    by reflexivity.
  assert (HV : func calc_runtime Calc.VarX X X = Ok (NdArray X)) by reflexivity.
  assert (Hcm : colormaps calc_runtime "viridis" = Some "viridis"%string)
    by reflexivity.
  assert (Hmn : 0 < 1 * 1) by (cbn; lia).
  destruct (stream_mode_follows_streamplot calc_runtime (new_axes calc_runtime)
              "x" 0 0 "viridis" "Cartesian" Calc.VarX X X X 1 1
              "viridis"%string a a
              Hc Hg eq_refl Hmn HV eq_refl eq_refl eq_refl Hcm eq_refl eq_refl)
    as [ax' [Hr Hs]].
  exists ax'. split; [exact Hr|].
  cbn [mpl_streamplot calc_runtime] in Hs. destruct Hs as [H1 [H2 _]]. auto.
Defined.
